(** * RAG knowledge-base MCP server: request pipeline and result envelopes

    A shallow embedding of
    [libs/miroflow-tools/src/miroflow_tools/mcp_servers/rag_knowledge_base_mcp_server.py]
    and the properties of its three tools [search_knowledge_base],
    [get_document] and [list_collections].

    Python values are modelled as they are in the program: [str] as a
    sequence of Unicode code points, [int] as [Z], [float] as a binary64
    float, parsed JSON as a tree whose objects keep insertion order.
    The awaits of the program (HTTP calls and [asyncio.sleep]) are events
    appended to a trace that is threaded through the computation, and Python
    exceptions are a second kind of result of every step. *)

From Stdlib Require Import ZArith List Bool Ascii String Lia PrimFloat.
From Stdlib Require Import DecimalString.
Import ListNotations.
Open Scope Z_scope.
Set Warnings "-register-all,-inexact-float".

(* ================================================================== *)
(** ** Python strings *)

Module PyStr.

(** A Python [str]: its code points, in order. *)
Definition pystr := list N.

(** A literal of the source text (ASCII only in this program). *)
Definition lit (s : string) : pystr :=
  map N_of_ascii (list_ascii_of_string s).

(** [str(n)] for an [int]. *)
Definition str_of_int (z : Z) : pystr :=
  lit (NilEmpty.string_of_int (Z.to_int z)).

Definition eqb (a b : pystr) : bool :=
  if list_eq_dec N.eq_dec a b then true else false.

(** [str.isspace] on one code point: CPython's [_Py_ascii_whitespace] table
    below 128 and [_PyUnicode_IsWhitespace] above. *)
Definition isspace (c : N) : bool :=
  let in_range lo hi := (N.leb lo c && N.leb c hi)%bool in
  (in_range 0x09 0x0D || in_range 0x1C 0x20
   || N.eqb c 0x85 || N.eqb c 0xA0 || N.eqb c 0x1680
   || in_range 0x2000 0x200A || N.eqb c 0x2028 || N.eqb c 0x2029
   || N.eqb c 0x202F || N.eqb c 0x205F || N.eqb c 0x3000)%N%bool.

Fixpoint lstrip (s : pystr) : pystr :=
  match s with
  | [] => []
  | c :: s' => if isspace c then lstrip s' else s
  end.

Definition rstrip (s : pystr) : pystr := rev (lstrip (rev s)).

(** [s.strip()] with no argument. *)
Definition strip (s : pystr) : pystr := rstrip (lstrip s).

(** Truthiness of a [str]: non-empty. *)
Definition truthy (s : pystr) : bool :=
  match s with [] => false | _ => true end.

(** [hay.startswith(needle)]. *)
Fixpoint startswith (needle hay : pystr) : bool :=
  match needle, hay with
  | [], _ => true
  | _ :: _, [] => false
  | a :: needle', b :: hay' => N.eqb a b && startswith needle' hay'
  end.

(** [needle in hay]. *)
Fixpoint infix (needle hay : pystr) : bool :=
  startswith needle hay
  || match hay with
     | [] => false
     | _ :: hay' => infix needle hay'
     end.

End PyStr.
Import PyStr.

(* ================================================================== *)
(** ** Python values: numbers and parsed JSON *)

Module Py.

(** [max(a, b)] and [min(a, b)] of the interpreter: the first argument is
    kept unless the second one compares strictly greater (smaller). *)
Definition max_int (a b : Z) : Z := if b >? a then b else a.
Definition min_int (a b : Z) : Z := if b <? a then b else a.

Definition max_float (a b : float) : float :=
  if PrimFloat.ltb a b then b else a.
Definition min_float (a b : float) : float :=
  if PrimFloat.ltb b a then b else a.

(** What [response.json()] yields and what [json.dumps] consumes.  Objects
    are Python dicts: bindings in insertion order. *)
Inductive json : Type :=
| JNull
| JBool (b : bool)
| JInt (z : Z)
| JFloat (f : float)
| JStr (s : pystr)
| JArr (items : list json)
| JObj (fields : list (pystr * json)).

(** [d[key]] lookup in a dict. *)
Fixpoint lookup (key : pystr) (d : list (pystr * json)) : option json :=
  match d with
  | [] => None
  | (k, v) :: d' => if PyStr.eqb key k then Some v else lookup key d'
  end.

(** [d.get(key, default)]. *)
Definition dict_get (d : list (pystr * json)) (key : pystr) (default : json)
  : json :=
  match lookup key d with
  | Some v => v
  | None => default
  end.

(** The keys of a dict are distinct; a binding list that repeats a key
    stands for the dict in which the key is counted once. *)
Definition dict_size (d : list (pystr * json)) : nat :=
  List.length (nodup (list_eq_dec N.eq_dec) (map fst d)).

(** The name [type(v).__name__] that error messages quote. *)
Definition type_name (v : json) : pystr :=
  match v with
  | JNull => lit "NoneType"
  | JBool _ => lit "bool"
  | JInt _ => lit "int"
  | JFloat _ => lit "float"
  | JStr _ => lit "str"
  | JArr _ => lit "list"
  | JObj _ => lit "dict"
  end.

(** Exceptions that can arise while a tool runs.  All of them are
    subclasses of [Exception]. *)
Inductive exn : Type :=
| TimeoutException (msg : pystr)
| HTTPStatusError (msg : pystr) (status_code : Z)
| RequestError (msg : pystr)
| JSONDecodeError (msg : pystr)
| AttributeError (msg : pystr)
| TypeError (msg : pystr)
| NameError (msg : pystr)
| UnboundLocalError (msg : pystr).

(** [str(e)]. *)
Definition str_exn (e : exn) : pystr :=
  match e with
  | TimeoutException m | HTTPStatusError m _ | RequestError m
  | JSONDecodeError m | AttributeError m | TypeError m | NameError m
  | UnboundLocalError m => m
  end.

(** [len(v)]: defined on sequences and dicts, [TypeError] otherwise. *)
Definition len (v : json) : nat + exn :=
  match v with
  | JStr s => inl (List.length s)
  | JArr items => inl (List.length items)
  | JObj d => inl (dict_size d)
  | _ => inr (TypeError (lit "object of type '" ++ type_name v
                          ++ lit "' has no len()"))
  end.

(** The bound method [v.get] exists on dicts only. *)
Definition get_method (v : json) : list (pystr * json) + exn :=
  match v with
  | JObj d => inl d
  | _ => inr (AttributeError (lit "'" ++ type_name v
                               ++ lit "' object has no attribute 'get'"))
  end.

End Py.
Import Py.

(* ================================================================== *)
(** ** The HTTP client and the remote endpoint *)

Module Http.

Inductive method : Type := GET | POST.

(** [httpx.Timeout(None, connect=c, read=r)]: no overall deadline. *)
Record timeout : Type := Timeout {
  default_timeout : option Z;
  connect : option Z;
  read : option Z
}.

Record request : Type := Request {
  req_method : method;
  req_url : pystr;
  req_headers : list (pystr * pystr);
  req_params : list (pystr * pystr);
  req_json : option json;
  req_timeout : timeout
}.

(** What [response.json()] does with the body of a response. *)
Inductive body : Type :=
| Parsed (v : json)
| Malformed (msg : pystr).

Record response : Type := Response {
  status_code : Z;
  reason_phrase : pystr;
  location : option pystr;
  content : body
}.

(** Every way one call of the client can end. *)
Inductive reply : Type :=
| Responded (r : response)
| TimedOut (msg : pystr)
| Failed (msg : pystr).

Definition is_success (r : response) : bool :=
  (200 <=? status_code r) && (status_code r <=? 299).

Definition has_redirect_location (r : response) : bool :=
  existsb (Z.eqb (status_code r)) [301; 302; 303; 307; 308]
  && match location r with Some _ => true | None => false end.

Definition error_type (r : response) : pystr :=
  match status_code r / 100 with
  | 1 => lit "Informational response"
  | 3 => lit "Redirect response"
  | 4 => lit "Client error"
  | 5 => lit "Server error"
  | _ => lit "Invalid status code"
  end.

Definition newline : pystr := [10%N].

(** The text of the [HTTPStatusError] that httpx's
    [Response.raise_for_status] builds for a response that is not 2xx. *)
Definition status_error_message (url : pystr) (r : response) : pystr :=
  error_type r ++ lit " '" ++ str_of_int (status_code r) ++ lit " "
  ++ reason_phrase r ++ lit "' for url '" ++ url ++ lit "'" ++ newline
  ++ (if has_redirect_location r
      then lit "Redirect location: '"
           ++ match location r with Some l => l | None => [] end
           ++ lit "'" ++ newline
      else [])
  ++ lit "For more information check: "
  ++ lit "https://developer.mozilla.org/en-US/docs/Web/HTTP/Status/"
  ++ str_of_int (status_code r).

(** The characters that [urllib.parse.quote_plus] never escapes: ASCII
    letters, digits and [_.-~]. *)
Definition unreserved (c : N) : bool :=
  let in_range lo hi := (N.leb lo c && N.leb c hi)%bool in
  (in_range 0x41 0x5A || in_range 0x61 0x7A || in_range 0x30 0x39
   || N.eqb c 0x5F || N.eqb c 0x2E || N.eqb c 0x2D || N.eqb c 0x7E)%N%bool.

(** The UTF-8 bytes of a code point. *)
Definition utf8 (c : N) : list N :=
  (if c <? 0x80 then [c]
   else if c <? 0x800 then [0xC0 + c / 64; 0x80 + c mod 64]
   else if c <? 0x10000 then
     [0xE0 + c / 4096; 0x80 + (c / 64) mod 64; 0x80 + c mod 64]
   else
     [0xF0 + c / 262144; 0x80 + (c / 4096) mod 64; 0x80 + (c / 64) mod 64;
      0x80 + c mod 64])%N.

Definition hex_digit (n : N) : N :=
  (if n <? 10 then 0x30 + n else 0x41 + (n - 10))%N.

(** [%XX] for one byte, in upper case. *)
Definition percent_byte (b : N) : pystr :=
  [0x25%N; hex_digit (b / 16)%N; hex_digit (b mod 16)%N].

(** [urllib.parse.quote_plus(s, safe="")]: a space becomes [+], every other
    character outside [unreserved] the [%XX] of its UTF-8 bytes. *)
Definition quote_plus (s : pystr) : pystr :=
  flat_map (fun c =>
              if unreserved c then [c]
              else if N.eqb c 0x20 then lit "+"
              else flat_map percent_byte (utf8 c)) s.

(** [urllib.parse.urlencode(items)], by which the client renders the
    [params] of a request. *)
Fixpoint urlencode (items : list (pystr * pystr)) : pystr :=
  match items with
  | [] => []
  | (k, v) :: items' =>
      quote_plus k ++ lit "=" ++ quote_plus v
      ++ match items' with
         | [] => []
         | _ :: _ => lit "&" ++ urlencode items'
         end
  end.

(** The text of [request.url], which is also [response.url]: the URL the
    client was given, with the [params] merged in as its query.  Without
    [params] nothing is appended. *)
Definition request_url (rq : request) : pystr :=
  match req_params rq with
  | [] => req_url rq
  | _ :: _ => req_url rq ++ lit "?" ++ urlencode (req_params rq)
  end.

End Http.
Import Http.

(* ================================================================== *)
(** ** Effects: a trace of awaits, and exceptions *)

Module Eff.

(** The two things a tool awaits. *)
Inductive event : Type :=
| Sent (rq : request)
| Slept (seconds : Z).

Inductive result (A : Type) : Type :=
| Return (a : A)
| Raise (e : exn).
Arguments Return {A} a.
Arguments Raise {A} e.

(** A computation extends the trace of the events so far and either
    returns or raises. *)
Definition M (A : Type) : Type := list event -> result A * list event.

Definition ret {A} (a : A) : M A := fun tr => (Return a, tr).

Definition raise {A} (e : exn) : M A := fun tr => (Raise e, tr).

Definition bind {A B} (m : M A) (k : A -> M B) : M B :=
  fun tr =>
    match m tr with
    | (Return a, tr') => k a tr'
    | (Raise e, tr') => (Raise e, tr')
    end.

(** [try: m  except Exception as e: handler e]. *)
Definition try_except {A} (m : M A) (handler : exn -> M A) : M A :=
  fun tr =>
    match m tr with
    | (Return a, tr') => (Return a, tr')
    | (Raise e, tr') => handler e tr'
    end.

Definition emit (ev : event) : M unit := fun tr => (Return tt, tr ++ [ev]).

(** A pure step that may raise. *)
Definition lift {A} (x : A + exn) : M A :=
  match x with
  | inl a => ret a
  | inr e => raise e
  end.

(** The requests of a trace, in order. *)
Definition requests (tr : list event) : list request :=
  flat_map (fun ev => match ev with Sent rq => [rq] | Slept _ => [] end) tr.

(** One invocation of a tool: it starts from the empty trace. *)
Definition run {A} (m : M A) : result A * list event := m [].

End Eff.
Import Eff.

Notation "x <- m ;; k" := (bind m (fun x => k))
  (at level 61, m at next level, right associativity).
Notation "m ;;; k" := (bind m (fun _ => k))
  (at level 61, right associativity).

(* ================================================================== *)
(** ** The module [rag_knowledge_base_mcp_server] *)

Module Server.

(** What the module's functions find around them when a tool is called.
    [RAG_API_URL] and [RAG_API_KEY] are read from the environment once.
    The name [asyncio] is bound in the module's globals only by the
    [import asyncio] under [if __name__ == "__main__":], that is when the
    file is executed as a script, and not when the module is imported.
    [remote n rq] is the way the [n]-th HTTP call of the invocation
    (counting from 0) ends when it sends [rq]. *)
Record env : Type := Env {
  RAG_API_URL : pystr;
  RAG_API_KEY : pystr;
  asyncio_bound : bool;
  remote : nat -> request -> reply
}.

(** [await client.post(...)] and [await client.get(...)]. *)
Definition send (e : env) (rq : request) : M response :=
  fun tr =>
    match remote e (List.length (requests tr)) rq with
    | Responded r => (Return r, tr ++ [Sent rq])
    | TimedOut msg => (Raise (TimeoutException msg), tr ++ [Sent rq])
    | Failed msg => (Raise (RequestError msg), tr ++ [Sent rq])
    end.

(** [response.raise_for_status()]. *)
Definition raise_for_status (rq : request) (r : response) : M unit :=
  if is_success r then ret tt
  else raise (HTTPStatusError (status_error_message (request_url rq) r)
                              (status_code r)).

(** [response.json()]. *)
Definition response_json (r : response) : M json :=
  match content r with
  | Parsed v => ret v
  | Malformed msg => raise (JSONDecodeError msg)
  end.

(** [await asyncio.sleep(delay)]: the global name is looked up first. *)
Definition asyncio_sleep (e : env) (delay : Z) : M unit :=
  if asyncio_bound e then emit (Slept delay)
  else raise (NameError (lit "name 'asyncio' is not defined")).

(** [not s or not s.strip()]. *)
Definition blank (s : pystr) : bool :=
  negb (truthy s) || negb (truthy (strip s)).

Definition bearer (e : env) : pystr * pystr :=
  (lit "Authorization", lit "Bearer " ++ RAG_API_KEY e).

Definition retry_delays : list Z := [1; 2; 4].

(** [enumerate(l, start)]. *)
Fixpoint enumerate {A} (l : list A) (start : nat) : list (nat * A) :=
  match l with
  | [] => []
  | x :: l' => (start, x) :: enumerate l' (S start)
  end.

Definition search_request (e : env) (query collection_name : pystr)
    (top_k : Z) (score_threshold : float) : request :=
  {| req_method := POST;
     req_url := RAG_API_URL e ++ lit "/api/search";
     req_headers := [bearer e; (lit "Content-Type", lit "application/json")];
     req_params := [];
     req_json := Some (JObj [(lit "query", JStr query);
                             (lit "collection_name", JStr collection_name);
                             (lit "top_k", JInt top_k);
                             (lit "score_threshold", JFloat score_threshold)]);
     req_timeout := Timeout None (Some 10) (Some 30) |}.

(** The retry loop of [search_knowledge_base]: one iteration per element of
    the enumerated schedule.  [Some response] is the [break]; [None] is the
    loop running off the end of its schedule, which it never does on
    [enumerate(retry_delays, 1)]: the last attempt breaks or raises
    ([schedule_never_runs_off] below). *)
Fixpoint retry_loop (e : env) (rq : request) (schedule : list (nat * Z))
  : M (option response) :=
  match schedule with
  | [] => ret None
  | (attempt, delay) :: rest =>
      try_except
        (response <- send e rq ;;
         raise_for_status rq response ;;;
         ret (Some response))
        (fun ex =>
           match ex with
           | TimeoutException _ =>
               if (attempt <? List.length retry_delays)%nat
               then asyncio_sleep e delay ;;; retry_loop e rq rest
               else raise ex
           | HTTPStatusError _ status_code =>
               if (status_code >=? 500)
                  || existsb (Z.eqb status_code) [408; 429]
               then
                 if (attempt <? List.length retry_delays)%nat
                 then asyncio_sleep e delay ;;; retry_loop e rq rest
                 else raise ex
               else raise ex
           | _ => raise ex
           end)
  end.

(** The tool returns [json.dumps(envelope, ensure_ascii=False)]; the
    embedding returns the envelope itself.  The [logger] calls are left out:
    they await nothing and change no value.  What their f-strings evaluate
    is kept where it can raise: [len(documents)] is first evaluated for the
    log line before the envelope is built. *)
Definition search_knowledge_base (e : env) (query collection_name : pystr)
    (top_k : Z) (score_threshold : float) : M json :=
  if blank query then
    ret (JObj [(lit "success", JBool false);
               (lit "error", JStr (lit "Query cannot be empty"));
               (lit "query", JStr query)])
  else
    let top_k := min_int (max_int 1 top_k) 20 in
    let score_threshold := min_float (max_float 0 score_threshold) 1 in
    try_except
      (found <- retry_loop e
                  (search_request e query collection_name top_k
                                  score_threshold)
                  (enumerate retry_delays 1) ;;
       match found with
       | None =>
           raise (UnboundLocalError
                    (lit "cannot access local variable 'response' where it is not associated with a value"))
       | Some response =>
           result_data <- response_json response ;;
           fields <- lift (get_method result_data) ;;
           let documents := dict_get fields (lit "documents") (JArr []) in
           count <- lift (len documents) ;;
           ret (JObj [(lit "success", JBool true);
                      (lit "query", JStr query);
                      (lit "collection", JStr collection_name);
                      (lit "results", documents);
                      (lit "count", JInt (Z.of_nat count))])
       end)
      (fun ex =>
         ret (JObj [(lit "success", JBool false);
                    (lit "error", JStr (str_exn ex));
                    (lit "query", JStr query);
                    (lit "collection", JStr collection_name)])).

Definition document_request (e : env) (document_id collection_name : pystr)
  : request :=
  {| req_method := GET;
     req_url := RAG_API_URL e ++ lit "/api/document/" ++ document_id;
     req_headers := [bearer e];
     req_params := [(lit "collection", collection_name)];
     req_json := None;
     req_timeout := Timeout None (Some 10) (Some 30) |}.

Definition get_document (e : env) (document_id collection_name : pystr)
  : M json :=
  if blank document_id then
    ret (JObj [(lit "success", JBool false);
               (lit "error", JStr (lit "Document ID cannot be empty"))])
  else
    let rq := document_request e document_id collection_name in
    try_except
      (response <- send e rq ;;
       raise_for_status rq response ;;;
       document <- response_json response ;;
       ret (JObj [(lit "success", JBool true);
                  (lit "document", document)]))
      (fun ex =>
         ret (JObj [(lit "success", JBool false);
                    (lit "error", JStr (str_exn ex));
                    (lit "document_id", JStr document_id)])).

Definition collections_request (e : env) : request :=
  {| req_method := GET;
     req_url := RAG_API_URL e ++ lit "/api/collections";
     req_headers := [bearer e];
     req_params := [];
     req_json := None;
     req_timeout := Timeout None (Some 10) (Some 10) |}.

(** [len(collections)] is evaluated by the f-string of the log line only;
    it can raise all the same. *)
Definition list_collections (e : env) : M json :=
  let rq := collections_request e in
  try_except
    (response <- send e rq ;;
     raise_for_status rq response ;;;
     collections_data <- response_json response ;;
     fields <- lift (get_method collections_data) ;;
     let collections := dict_get fields (lit "collections") (JArr []) in
     _ <- lift (len collections) ;;
     ret (JObj [(lit "success", JBool true);
                (lit "collections", collections)]))
    (fun ex =>
       ret (JObj [(lit "success", JBool false);
                  (lit "error", JStr (str_exn ex))])).

End Server.
Import Server.

(* ================================================================== *)
(** ** Vocabulary of the properties *)

Module Props.

(** The uniform envelope: a JSON object with a boolean [success] and, when
    [success] is false, a text [error]. *)
Definition is_envelope (j : json) : Prop :=
  exists fields b,
    j = JObj fields
    /\ lookup (lit "success") fields = Some (JBool b)
    /\ (b = false -> exists msg, lookup (lit "error") fields = Some (JStr msg)).

(** A reply that is a 2xx response. *)
Definition succeeded (rp : reply) : bool :=
  match rp with
  | Responded r => is_success r
  | TimedOut _ | Failed _ => false
  end.

(** A retryable condition: a timeout, or an HTTP status that is at least
    500 or one of 408 and 429. *)
Definition retryable (rp : reply) : bool :=
  match rp with
  | TimedOut _ => true
  | Responded r =>
      (status_code r >=? 500) || (status_code r =? 408)
      || (status_code r =? 429)
  | Failed _ => false
  end.

(** The exception in which an attempt that did not succeed ends: raised by
    the client itself or by [raise_for_status]. *)
Definition failure_of (rq : request) (rp : reply) : exn :=
  match rp with
  | Responded r =>
      HTTPStatusError (status_error_message (request_url rq) r)
                      (status_code r)
  | TimedOut msg => TimeoutException msg
  | Failed msg => RequestError msg
  end.

Definition asyncio_unbound : exn :=
  NameError (lit "name 'asyncio' is not defined").

(** How the last HTTP call of a trace ended. *)
Definition last_reply (e : env) (tr : list event) : option reply :=
  match rev (requests tr) with
  | [] => None
  | rq :: earlier => Some (remote e (List.length earlier) rq)
  end.

(** The request every attempt of a search sends. *)
Definition outbound (e : env) (query collection_name : pystr) (top_k : Z)
    (score_threshold : float) : request :=
  search_request e query collection_name
    (Z.min (Z.max 1 top_k) 20)
    (min_float (max_float 0 score_threshold) 1).

Definition search_failure (msg query collection_name : pystr) : json :=
  JObj [(lit "success", JBool false);
        (lit "error", JStr msg);
        (lit "query", JStr query);
        (lit "collection", JStr collection_name)].

Definition search_success (query collection_name : pystr) (documents : json)
    (count : nat) : json :=
  JObj [(lit "success", JBool true);
        (lit "query", JStr query);
        (lit "collection", JStr collection_name);
        (lit "results", documents);
        (lit "count", JInt (Z.of_nat count))].


Definition document_failure (msg document_id : pystr) : json :=
  JObj [(lit "success", JBool false);
        (lit "error", JStr msg);
        (lit "document_id", JStr document_id)].

Definition collections_success (collections : json) : json :=
  JObj [(lit "success", JBool true);
        (lit "collections", collections)].

(** A search that ends after its first request, reporting the unbound
    name. *)
Definition single_attempt_name_error (e : env) (query collection_name : pystr)
    (top_k : Z) (score_threshold : float) : Prop :=
  run (search_knowledge_base e query collection_name top_k score_threshold)
  = (Return (search_failure (str_exn asyncio_unbound) query collection_name),
     [Sent (outbound e query collection_name top_k score_threshold)]).

End Props.
Import Props.

(* ================================================================== *)
(** ** Concrete endpoints *)

Module Scenario.

Definition plain (status : Z) (reason : string) (b : body) : response :=
  {| status_code := status; reason_phrase := lit reason;
     location := None; content := b |}.

Definition unavailable : response :=
  plain 503 "Service Unavailable" (Malformed (lit "Expecting value")).

Definition not_found : response :=
  plain 404 "Not Found" (Malformed (lit "Expecting value")).

Definition ok (v : json) : response := plain 200 "OK" (Parsed v).

(** 503 on the first two calls, then 200 with two documents. *)
Definition flaky (doc1 doc2 : json) : nat -> request -> reply :=
  fun n _ =>
    match n with
    | 0%nat | 1%nat => Responded unavailable
    | _ => Responded (ok (JObj [(lit "documents", JArr [doc1; doc2])]))
    end.

(** 503 once, then 200 with no documents. *)
Definition hiccup : nat -> request -> reply :=
  fun n _ =>
    match n with
    | 0%nat => Responded unavailable
    | _ => Responded (ok (JObj [(lit "documents", JArr [])]))
    end.

Definition always (r : response) : nat -> request -> reply :=
  fun _ _ => Responded r.

Definition localhost : pystr := lit "http://localhost:8000".

(** The module executed as a script, and the module imported. *)
Definition script (endpoint : nat -> request -> reply) : env :=
  {| RAG_API_URL := localhost; RAG_API_KEY := [];
     asyncio_bound := true; remote := endpoint |}.

Definition imported (endpoint : nat -> request -> reply) : env :=
  {| RAG_API_URL := localhost; RAG_API_KEY := [];
     asyncio_bound := false; remote := endpoint |}.

Definition doc (name : string) : json :=
  JObj [(lit "id", JStr (lit name))].

Definition threshold : float := 0.7%float.

End Scenario.

(* ================================================================== *)
(** ** Module start-up *)

Module Startup.

(** [os.environ.get(key, default)]; the environment is a mapping, given by
    its bindings. *)
Fixpoint environ_get (environ : list (pystr * pystr)) (key default : pystr)
  : pystr :=
  match environ with
  | [] => default
  | (k, v) :: environ' =>
      if PyStr.eqb key k then v else environ_get environ' key default
  end.

(** What the module's top level leaves behind: the two settings read from
    the environment, and [asyncio] bound exactly when
    [__name__ == "__main__"]. *)
Definition load (environ : list (pystr * pystr)) (as_main : bool)
    (endpoint : nat -> request -> reply) : env :=
  {| RAG_API_URL :=
       environ_get environ (lit "RAG_API_URL") (lit "http://localhost:8000");
     RAG_API_KEY := environ_get environ (lit "RAG_API_KEY") (lit "");
     asyncio_bound := as_main;
     remote := endpoint |}.

End Startup.
Import Startup.

(* ================================================================== *)
(** ** Further vocabulary *)

Module Shape.

(** The longest trace a search can leave: three attempts, the delays 1 and
    2 between them. *)
Definition schedule_trace (rq : request) : list event :=
  [Sent rq; Slept 1; Sent rq; Slept 2; Sent rq].

(** How an attempt that is not to be retried leaves the loop: by [break]
    with its response, or by the exception it failed with. *)
Definition loop_exit (rq : request) (rp : reply)
  : result (option response) :=
  match rp with
  | Responded r =>
      if is_success r then Return (Some r) else Raise (failure_of rq rp)
  | TimedOut _ | Failed _ => Raise (failure_of rq rp)
  end.

(** The same environment with [asyncio] bound or not. *)
Definition with_asyncio (bound : bool) (e : env) : env :=
  {| RAG_API_URL := RAG_API_URL e;
     RAG_API_KEY := RAG_API_KEY e;
     asyncio_bound := bound;
     remote := remote e |}.

(** The exception, if any, that reading the list under [key] out of a body
    raises: the body is not JSON, is not an object, or holds under [key] a
    value without a length. *)
Definition body_error (key : string) (b : body) : option exn :=
  match b with
  | Malformed msg => Some (JSONDecodeError msg)
  | Parsed v =>
      match get_method v with
      | inr ex => Some ex
      | inl fields =>
          match len (dict_get fields (lit key) (JArr [])) with
          | inr ex => Some ex
          | inl _ => None
          end
      end
  end.

Definition document_success (document : json) : json :=
  JObj [(lit "success", JBool true);
        (lit "document", document)].

Definition collections_failure (msg : pystr) : json :=
  JObj [(lit "success", JBool false);
        (lit "error", JStr msg)].

(** The bearer header of a request built from the key [key]. *)
Definition authorised (key : pystr) (rq : request) : Prop :=
  In (lit "Authorization", lit "Bearer " ++ key) (req_headers rq).

End Shape.
Import Shape.

(** More endpoints. *)
Module Cases.

(** A read timeout, then 429, then 404. *)
Definition worsening : nat -> request -> reply :=
  fun n _ =>
    match n with
    | 0%nat => TimedOut (lit "The read operation timed out")
    | 1%nat => Responded (Scenario.plain 429 "Too Many Requests"
                            (Malformed (lit "Expecting value")))
    | _ => Responded Scenario.not_found
    end.

Definition timing_out : nat -> request -> reply :=
  fun _ _ => TimedOut (lit "The read operation timed out").

Definition refusing : nat -> request -> reply :=
  fun _ _ => Failed (lit "All connection attempts failed").

Definition null_documents : json := JObj [(lit "documents", JNull)].

End Cases.

(* ================================================================== *)
(** ** Strings and clamping *)

Section StringFacts.

Lemma lstrip_nil_iff (s : pystr) :
  lstrip s = [] <-> forallb isspace s = true.
Proof.
  induction s as [|c s IH]; simpl.
  - tauto.
  - destruct (isspace c); simpl.
    + exact IH.
    + split; discriminate.
Qed.

(** What [lstrip] leaves is empty or starts with a non-blank. *)
Lemma lstrip_head (s : pystr) :
  match lstrip s with
  | [] => True
  | c :: _ => isspace c = false
  end.
Proof.
  induction s as [|c s IH]; simpl; [exact I|].
  destruct (isspace c) eqn:Hc; [exact IH | simpl; exact Hc].
Qed.

Lemma forallb_rev {A} (f : A -> bool) (l : list A) :
  forallb f (rev l) = forallb f l.
Proof.
  induction l as [|x l IH]; simpl; [reflexivity|].
  rewrite forallb_app, IH; simpl.
  rewrite andb_true_r. apply andb_comm.
Qed.

Lemma strip_nil_iff (s : pystr) :
  strip s = [] <-> forallb isspace s = true.
Proof.
  unfold strip, rstrip. split.
  - intros H.
    assert (Hl : lstrip (rev (lstrip s)) = []).
    { destruct (lstrip (rev (lstrip s))) as [|c t] eqn:E; [reflexivity|].
      simpl in H. destruct (rev t); discriminate. }
    apply lstrip_nil_iff in Hl. rewrite forallb_rev in Hl.
    pose proof (lstrip_head s) as Hh.
    destruct (lstrip s) as [|c t] eqn:E.
    + now apply lstrip_nil_iff.
    + simpl in Hl. rewrite Hh in Hl. discriminate.
  - intros H. apply lstrip_nil_iff in H. rewrite H. reflexivity.
Qed.

(** The guard [not s or not s.strip()] holds exactly of the strings made of
    whitespace only, the empty one included. *)
Lemma blank_iff (s : pystr) :
  blank s = true <-> forallb isspace s = true.
Proof.
  unfold blank. rewrite <- strip_nil_iff. split.
  - intros H. apply orb_true_iff in H. destruct H as [H|H].
    + destruct s; [reflexivity | discriminate].
    + destruct (strip s); [reflexivity | discriminate].
  - intros H. rewrite H. apply orb_true_r.
Qed.

Lemma max_int_spec (a b : Z) : max_int a b = Z.max a b.
Proof. unfold max_int. destruct (Z.gtb_spec b a); lia. Qed.

Lemma min_int_spec (a b : Z) : min_int a b = Z.min a b.
Proof. unfold min_int. destruct (Z.ltb_spec b a); lia. Qed.

Lemma clamp_top_k (top_k : Z) :
  min_int (max_int 1 top_k) 20 = Z.min (Z.max 1 top_k) 20.
Proof. now rewrite min_int_spec, max_int_spec. Qed.

Lemma startswith_app (needle post : pystr) :
  startswith needle (needle ++ post) = true.
Proof.
  induction needle as [|a needle IH]; simpl; [reflexivity|].
  now rewrite N.eqb_refl, IH.
Qed.

Lemma infix_app (needle pre post : pystr) :
  infix needle (pre ++ needle ++ post) = true.
Proof.
  induction pre as [|a pre IH]; simpl.
  - destruct needle as [|a needle]; [destruct post; reflexivity|].
    simpl. now rewrite N.eqb_refl, startswith_app.
  - rewrite IH. apply orb_true_r.
Qed.

(** The text of an [HTTPStatusError] quotes the status code. *)
Lemma status_error_message_quotes_code (url : pystr) (r : response) :
  infix (str_of_int (status_code r)) (status_error_message url r) = true.
Proof.
  unfold status_error_message.
  rewrite (app_assoc (error_type r) (lit " '")).
  apply infix_app.
Qed.

(** The clamped threshold is never computed, only chosen: it is the input
    or one of the two bounds. *)
Lemma clamp_threshold_cases (t : float) :
  min_float (max_float 0 t) 1
  = if PrimFloat.ltb 0 t then (if PrimFloat.ltb 1 t then 1%float else t)
    else 0%float.
Proof.
  unfold min_float, max_float.
  destruct (PrimFloat.ltb 0 t); reflexivity.
Qed.

End StringFacts.

(* ================================================================== *)
(** ** One iteration of the retry loop *)

Section RetryStep.

Variable e : env.
Variable rq : request.
Variables (attempt : nat) (delay : Z) (rest : list (nat * Z)).
Variable tr : list event.

Let rp : reply := remote e (List.length (requests tr)) rq.

Lemma retryable_not_success : retryable rp = true -> succeeded rp = false.
Proof.
  destruct rp as [r|m|m]; simpl; try reflexivity.
  unfold is_success. intros H.
  destruct (Z.leb_spec 200 (status_code r)),
           (Z.leb_spec (status_code r) 299); simpl; try reflexivity.
  apply orb_true_iff in H. destruct H as [H|H].
  - apply orb_true_iff in H. destruct H as [H|H].
    + apply Z.geb_le in H. lia.
    + apply Z.eqb_eq in H. lia.
  - apply Z.eqb_eq in H. lia.
Qed.

(** A 2xx response is the [break]. *)
Lemma retry_loop_break (r : response) :
  rp = Responded r -> is_success r = true ->
  retry_loop e rq ((attempt, delay) :: rest) tr
  = (Return (Some r), tr ++ [Sent rq]).
Proof.
  intros Hrp Hok. subst rp. simpl.
  unfold try_except, bind, send, raise_for_status.
  rewrite Hrp, Hok. reflexivity.
Qed.

(** A failure that is not retryable is re-raised at once. *)
Lemma retry_loop_fatal :
  succeeded rp = false -> retryable rp = false ->
  retry_loop e rq ((attempt, delay) :: rest) tr
  = (Raise (failure_of rq rp), tr ++ [Sent rq]).
Proof.
  subst rp. simpl. unfold try_except, bind, send, raise_for_status.
  destruct (remote e (List.length (requests tr)) rq) as [r|m|m]; simpl;
    intros Hs Hr; try discriminate; try reflexivity.
  rewrite Hs. unfold raise. simpl.
  rewrite orb_false_r, orb_assoc, Hr. reflexivity.
Qed.

(** A retryable failure on the last attempt of the schedule is re-raised. *)
Lemma retry_loop_exhausted :
  retryable rp = true ->
  (attempt <? List.length retry_delays)%nat = false ->
  retry_loop e rq ((attempt, delay) :: rest) tr
  = (Raise (failure_of rq rp), tr ++ [Sent rq]).
Proof.
  intros Hr Ha. pose proof (retryable_not_success Hr) as Hs. revert Hr Hs.
  subst rp. cbn [retry_loop]. rewrite Ha. unfold try_except, bind, send, raise_for_status.
  destruct (remote e (List.length (requests tr)) rq) as [r|m|m]; simpl;
    intros Hr Hs; try discriminate.
  - rewrite Hs. unfold raise. simpl.
    rewrite orb_false_r, orb_assoc, Hr. reflexivity.
  - reflexivity.
Qed.

(** A retryable failure before the last attempt, with [asyncio] bound:
    sleep, then the next iteration. *)
Lemma retry_loop_again :
  retryable rp = true ->
  (attempt <? List.length retry_delays)%nat = true ->
  asyncio_bound e = true ->
  retry_loop e rq ((attempt, delay) :: rest) tr
  = retry_loop e rq rest (tr ++ [Sent rq; Slept delay]).
Proof.
  intros Hr Ha Hb. pose proof (retryable_not_success Hr) as Hs. revert Hr Hs.
  subst rp. cbn [retry_loop]. rewrite Ha.
  unfold try_except, bind, send, raise_for_status, asyncio_sleep, emit.
  replace (tr ++ [Sent rq; Slept delay])
    with ((tr ++ [Sent rq]) ++ [Slept delay])
    by (rewrite <- app_assoc; reflexivity).
  destruct (remote e (List.length (requests tr)) rq) as [r|m|m]; simpl;
    intros Hr Hs; try discriminate.
  - rewrite Hs. unfold raise. simpl.
    rewrite orb_false_r, orb_assoc, Hr, Hb. reflexivity.
  - rewrite Hb. reflexivity.
Qed.

(** The same failure with [asyncio] unbound: the lookup of the name raises
    before anything is awaited, and the loop is left. *)
Lemma retry_loop_name_error :
  retryable rp = true ->
  (attempt <? List.length retry_delays)%nat = true ->
  asyncio_bound e = false ->
  retry_loop e rq ((attempt, delay) :: rest) tr
  = (Raise asyncio_unbound, tr ++ [Sent rq]).
Proof.
  intros Hr Ha Hb. pose proof (retryable_not_success Hr) as Hs. revert Hr Hs.
  subst rp. cbn [retry_loop]. rewrite Ha.
  unfold try_except, bind, send, raise_for_status, asyncio_sleep.
  destruct (remote e (List.length (requests tr)) rq) as [r|m|m]; simpl;
    intros Hr Hs; try discriminate.
  - rewrite Hs. unfold raise. simpl.
    rewrite orb_false_r, orb_assoc, Hr, Hb. reflexivity.
  - rewrite Hb. reflexivity.
Qed.

End RetryStep.

(* ================================================================== *)
(** ** The whole retry loop *)

Section RetryLoop.

Variable e : env.
Variable rq : request.

Lemma requests_app (a b : list event) :
  requests (a ++ b) = requests a ++ requests b.
Proof. unfold requests. apply flat_map_app. Qed.

Lemma last_reply_sent (tr : list event) :
  last_reply e (tr ++ [Sent rq])
  = Some (remote e (List.length (requests tr)) rq).
Proof.
  unfold last_reply. rewrite requests_app. simpl.
  rewrite rev_app_distr. simpl. now rewrite length_rev.
Qed.

Lemma last_reply_slept (tr : list event) (d : Z) :
  last_reply e (tr ++ [Sent rq; Slept d])
  = Some (remote e (List.length (requests tr)) rq).
Proof.
  unfold last_reply. rewrite requests_app. simpl.
  rewrite rev_app_distr. simpl. now rewrite length_rev.
Qed.

(** Case analysis on one iteration, by the five step lemmas. *)
Ltac iteration attempt delay rest tr :=
  let rp := fresh "rp" in
  let Hs := fresh "Hs" in
  let Hr := fresh "Hr" in
  let Ha := fresh "Ha" in
  let Hb := fresh "Hb" in
  pose (rp := remote e (List.length (requests tr)) rq);
  destruct (succeeded rp) eqn:Hs;
  [ destruct rp as [r|m|m] eqn:Erp; try discriminate Hs;
    rewrite (retry_loop_break e rq attempt delay rest tr r Erp Hs)
  | destruct (retryable rp) eqn:Hr;
    [ destruct (attempt <? List.length retry_delays)%nat eqn:Ha;
      [ destruct (asyncio_bound e) eqn:Hb;
        [ rewrite (retry_loop_again e rq attempt delay rest tr Hr Ha Hb)
        | rewrite (retry_loop_name_error e rq attempt delay rest tr Hr Ha Hb) ]
      | rewrite (retry_loop_exhausted e rq attempt delay rest tr Hr Ha) ]
    | rewrite (retry_loop_fatal e rq attempt delay rest tr Hs Hr) ] ].

(** The loop only ever extends the trace, every request it sends is [rq],
    and a non-empty schedule starts by sending it. *)
Lemma retry_loop_sends (schedule : list (nat * Z)) :
  forall tr, exists added,
    snd (retry_loop e rq schedule tr) = tr ++ added
    /\ Forall (eq rq) (requests added)
    /\ (schedule <> [] -> exists more, added = Sent rq :: more).
Proof.
  induction schedule as [|[attempt delay] rest IH]; intros tr.
  - exists []. simpl. rewrite app_nil_r. repeat split; [constructor|].
    intros H. now contradiction H.
  - iteration attempt delay rest tr;
      try (exists [Sent rq]; simpl; repeat split;
           [repeat constructor | intros _; now exists []]).
    destruct (IH (tr ++ [Sent rq; Slept delay])) as (added & Ht & Hall & _).
    exists (Sent rq :: Slept delay :: added). rewrite Ht.
    rewrite <- app_assoc. simpl. repeat split.
    + constructor; [reflexivity | exact Hall].
    + intros _. now eexists.
Qed.

(** How the loop over a non-empty schedule ends: with the response of its
    last request when that one is 2xx, and otherwise without a response,
    the last request having failed. *)
Lemma retry_loop_outcome (schedule : list (nat * Z)) :
  forall tr, schedule <> [] ->
    match retry_loop e rq schedule tr with
    | (Return (Some r), tr') =>
        last_reply e tr' = Some (Responded r) /\ is_success r = true
    | (_, tr') =>
        exists rp, last_reply e tr' = Some rp /\ succeeded rp = false
    end.
Proof.
  induction schedule as [|[attempt delay] rest IH]; intros tr Hne.
  - now contradiction Hne.
  - iteration attempt delay rest tr.
    + rewrite last_reply_sent. fold rp. rewrite Erp. now split.
    + destruct rest as [|next rest'].
      * simpl. unfold ret. exists rp. rewrite last_reply_slept. now split.
      * apply IH. discriminate.
    + exists rp. rewrite last_reply_sent. now split.
    + exists rp. rewrite last_reply_sent. now split.
    + exists rp. rewrite last_reply_sent. now split.
Qed.

(** On the schedule of the program the loop is left by [break] or by an
    exception, never by exhaustion. *)
Lemma schedule_never_runs_off :
  fst (retry_loop e rq (enumerate retry_delays 1) []) <> Return None.
Proof.
  cbn [enumerate retry_delays].
  iteration 1%nat 1 [(2%nat, 2); (3%nat, 4)] (@nil event);
    try discriminate.
  iteration 2%nat 2 [(3%nat, 4)] ([] ++ [Sent rq; Slept 1]);
    try discriminate.
  iteration 3%nat 4 (@nil (nat * Z))
            (([] ++ [Sent rq; Slept 1]) ++ [Sent rq; Slept 2]);
    discriminate.
Qed.

End RetryLoop.

(* ================================================================== *)
(** ** The envelope contract *)

Section Envelope.

Variable e : env.

Lemma failure_is_envelope (msg : pystr) (context : list (pystr * json)) :
  is_envelope (JObj ((lit "success", JBool false)
                     :: (lit "error", JStr msg) :: context)).
Proof.
  eexists _, false. repeat split.
  intros _. now exists msg.
Qed.

Lemma success_is_envelope (payload : list (pystr * json)) :
  is_envelope (JObj ((lit "success", JBool true) :: payload)).
Proof.
  eexists _, true. repeat split. discriminate.
Qed.

Lemma search_returns_envelope (query collection_name : pystr) (top_k : Z)
    (score_threshold : float) :
  exists j tr,
    run (search_knowledge_base e query collection_name top_k score_threshold)
    = (Return j, tr)
    /\ is_envelope j.
Proof.
  unfold run, search_knowledge_base.
  destruct (blank query).
  - eexists _, _. split; [reflexivity | apply failure_is_envelope].
  - unfold try_except, bind.
    destruct (retry_loop e _ _ []) as [[[r|]|ex] tr].
    + unfold response_json.
      destruct (content r) as [v|msg]; simpl;
        [| eexists _, _; split; [reflexivity | apply failure_is_envelope]].
      destruct (get_method v) as [fields|ex]; simpl;
        [| eexists _, _; split; [reflexivity | apply failure_is_envelope]].
      destruct (len (dict_get fields (lit "documents") (JArr [])))
        as [n|ex]; simpl;
        eexists _, _; split; try reflexivity;
        [apply success_is_envelope | apply failure_is_envelope].
    + eexists _, _. split; [reflexivity | apply failure_is_envelope].
    + eexists _, _. split; [reflexivity | apply failure_is_envelope].
Qed.

Lemma get_document_returns_envelope (document_id collection_name : pystr) :
  exists j tr,
    run (get_document e document_id collection_name) = (Return j, tr)
    /\ is_envelope j.
Proof.
  unfold run, get_document.
  destruct (blank document_id).
  - eexists _, _. split; [reflexivity | apply failure_is_envelope].
  - unfold try_except, bind, send, raise_for_status, response_json.
    destruct (remote e _ _) as [r|m|m]; simpl;
      try (eexists _, _; split; [reflexivity | apply failure_is_envelope]).
    destruct (is_success r); simpl;
      [| eexists _, _; split; [reflexivity | apply failure_is_envelope]].
    destruct (content r) as [v|msg]; simpl;
      eexists _, _; split; try reflexivity;
      [apply success_is_envelope | apply failure_is_envelope].
Qed.

Lemma list_collections_returns_envelope :
  exists j tr,
    run (list_collections e) = (Return j, tr) /\ is_envelope j.
Proof.
  unfold run, list_collections.
  unfold try_except, bind, send, raise_for_status, response_json.
  destruct (remote e _ _) as [r|m|m]; simpl;
    try (eexists _, _; split; [reflexivity | apply failure_is_envelope]).
  destruct (is_success r); simpl;
    [| eexists _, _; split; [reflexivity | apply failure_is_envelope]].
  destruct (content r) as [v|msg]; simpl;
    [| eexists _, _; split; [reflexivity | apply failure_is_envelope]].
  destruct (get_method v) as [fields|ex]; simpl;
    [| eexists _, _; split; [reflexivity | apply failure_is_envelope]].
  destruct (len (dict_get fields (lit "collections") (JArr [])))
    as [n|ex]; simpl;
    eexists _, _; split; try reflexivity;
    [apply success_is_envelope | apply failure_is_envelope].
Qed.

End Envelope.

(** C1. Whatever the inputs and however the remote endpoint behaves (any
    status, a timeout, a transport error, a body that is not JSON or not of
    the expected shape), each of [search_knowledge_base], [get_document] and
    [list_collections] returns, and never raises: what it returns is an
    envelope with a boolean [success] and, when that is false, a text
    [error]. *)
Theorem every_tool_returns_an_envelope (e : env) :
  (forall query collection_name top_k score_threshold,
      exists j tr,
        run (search_knowledge_base e query collection_name top_k
                                   score_threshold) = (Return j, tr)
        /\ is_envelope j)
  /\ (forall document_id collection_name,
         exists j tr,
           run (get_document e document_id collection_name) = (Return j, tr)
           /\ is_envelope j)
  /\ (exists j tr,
         run (list_collections e) = (Return j, tr) /\ is_envelope j).
Proof.
  split; [| split].
  - apply search_returns_envelope.
  - apply get_document_returns_envelope.
  - apply list_collections_returns_envelope.
Qed.

(* ================================================================== *)
(** ** [search_knowledge_base] around its loop *)

Section Search.

Variable e : env.
Variables query collection_name : pystr.
Variable top_k : Z.
Variable score_threshold : float.

Let rq : request := outbound e query collection_name top_k score_threshold.
Let attempts := retry_loop e rq (enumerate retry_delays 1) [].

Hypothesis not_blank : blank query = false.

(** Nothing is awaited outside the loop. *)
Lemma search_trace :
  snd (run (search_knowledge_base e query collection_name top_k
                                  score_threshold))
  = snd attempts.
Proof.
  unfold run, search_knowledge_base. rewrite not_blank, clamp_top_k.
  fold (outbound e query collection_name top_k score_threshold).
  fold rq. unfold try_except, bind. fold attempts.
  destruct attempts as [[[r|]|ex] tr]; try reflexivity.
  unfold response_json.
  destruct (content r) as [v|msg]; simpl; [| reflexivity].
  destruct (get_method v) as [fields|ex]; simpl; [| reflexivity].
  destruct (len (dict_get fields (lit "documents") (JArr []))); reflexivity.
Qed.

(** An exception that leaves the loop becomes the failure envelope. *)
Lemma search_of_raise (ex : exn) (tr : list event) :
  attempts = (Raise ex, tr) ->
  run (search_knowledge_base e query collection_name top_k score_threshold)
  = (Return (search_failure (str_exn ex) query collection_name), tr).
Proof.
  intros H.
  unfold run, search_knowledge_base. rewrite not_blank, clamp_top_k.
  fold (outbound e query collection_name top_k score_threshold).
  fold rq. unfold try_except, bind. fold attempts. rewrite H. reflexivity.
Qed.

(** The response the loop breaks with becomes the success envelope when its
    body is an object whose [documents] has a length. *)
Lemma search_of_break (r : response) (tr : list event)
    (fields : list (pystr * json)) (n : nat) :
  attempts = (Return (Some r), tr) ->
  content r = Parsed (JObj fields) ->
  len (dict_get fields (lit "documents") (JArr [])) = inl n ->
  run (search_knowledge_base e query collection_name top_k score_threshold)
  = (Return (search_success query collection_name
               (dict_get fields (lit "documents") (JArr [])) n), tr).
Proof.
  intros H Hc Hn.
  unfold run, search_knowledge_base. rewrite not_blank, clamp_top_k.
  fold (outbound e query collection_name top_k score_threshold).
  fold rq. unfold try_except, bind. fold attempts. rewrite H.
  unfold response_json. rewrite Hc. simpl. rewrite Hn. reflexivity.
Qed.

End Search.

(* ================================================================== *)
(** ** Validation and clamping *)

(** C6. A query that is empty or made of whitespace only is answered with
    [{success: false, error: "Query cannot be empty", query: <the query as
    given>}] and no request is sent; a document id that is empty or made of
    whitespace only is answered with [{success: false, error: "Document ID
    cannot be empty"}] and no request is sent. *)
Theorem blank_input_is_rejected_locally (e : env) (text collection_name : pystr)
    (top_k : Z) (score_threshold : float) :
  forallb isspace text = true ->
  run (search_knowledge_base e text collection_name top_k score_threshold)
  = (Return (JObj [(lit "success", JBool false);
                   (lit "error", JStr (lit "Query cannot be empty"));
                   (lit "query", JStr text)]), [])
  /\ run (get_document e text collection_name)
     = (Return (JObj [(lit "success", JBool false);
                      (lit "error", JStr (lit "Document ID cannot be empty"))]),
        []).
Proof.
  intros H. apply blank_iff in H.
  unfold run, search_knowledge_base, get_document. rewrite H.
  split; reflexivity.
Qed.

Lemma blank_input_is_rejected_locally_witness :
  let spaces := lit "   " in
  let e := Scenario.script (Scenario.always Scenario.unavailable) in
  forallb isspace spaces = true
  /\ run (search_knowledge_base e spaces (lit "default") 5 Scenario.threshold)
     = (Return (JObj [(lit "success", JBool false);
                      (lit "error", JStr (lit "Query cannot be empty"));
                      (lit "query", JStr spaces)]), [])
  /\ run (get_document e spaces (lit "default"))
     = (Return (JObj [(lit "success", JBool false);
                      (lit "error",
                       JStr (lit "Document ID cannot be empty"))]), []).
Proof.
  intros spaces e. split; [reflexivity|].
  apply (blank_input_is_rejected_locally e spaces (lit "default") 5
           Scenario.threshold).
  reflexivity.
Defined.

(** C7. For a query that is not blank, whatever [top_k] and
    [score_threshold] are, the search is not refused: it starts by sending a
    request, and every request it sends carries in its body
    [min(max(1, top_k), 20)] as [top_k] and
    [min(max(0.0, score_threshold), 1.0)] as [score_threshold]: the
    threshold itself when it is greater than 0 and not greater than 1, 1.0
    when it is greater than 1, and 0.0 otherwise (so for a negative one, for
    -0.0 and for nan). *)
Theorem outbound_values_are_clamped (e : env) (query collection_name : pystr)
    (top_k : Z) (score_threshold : float) :
  blank query = false ->
  let trace :=
    snd (run (search_knowledge_base e query collection_name top_k
                                    score_threshold)) in
  (exists rq more, trace = Sent rq :: more)
  /\ forall rq, In rq (requests trace) ->
       req_json rq
       = Some (JObj [(lit "query", JStr query);
                     (lit "collection_name", JStr collection_name);
                     (lit "top_k", JInt (Z.min (Z.max 1 top_k) 20));
                     (lit "score_threshold",
                      JFloat (if PrimFloat.ltb 0 score_threshold
                              then if PrimFloat.ltb 1 score_threshold
                                   then 1%float
                                   else score_threshold
                              else 0%float))]).
Proof.
  intros Hq trace. subst trace. rewrite search_trace by exact Hq.
  destruct (retry_loop_sends e
              (outbound e query collection_name top_k score_threshold)
              (enumerate retry_delays 1) [])
    as (added & Ht & Hall & Hfirst).
  destruct Hfirst as [more Hm]; [discriminate|].
  rewrite Ht. cbn [app]. split.
  - rewrite Hm. eexists _, more. reflexivity.
  - intros rq Hin. rewrite Forall_forall in Hall.
    rewrite <- (Hall rq Hin). rewrite <- clamp_threshold_cases.
    reflexivity.
Qed.

Lemma outbound_values_are_clamped_witness :
  let e := Scenario.script (Scenario.always Scenario.unavailable) in
  let trace :=
    snd (run (search_knowledge_base e (lit "q") (lit "docs") 50 (-3))) in
  (exists rq more, trace = Sent rq :: more)
  /\ forall rq, In rq (requests trace) ->
       req_json rq
       = Some (JObj [(lit "query", JStr (lit "q"));
                     (lit "collection_name", JStr (lit "docs"));
                     (lit "top_k", JInt 20);
                     (lit "score_threshold", JFloat 0)]).
Proof.
  intros e.
  apply (outbound_values_are_clamped e (lit "q") (lit "docs") 50 (-3)).
  reflexivity.
Defined.

(* ================================================================== *)
(** ** Failures that are not retried *)

(** C5. For a query that is not blank, when the first attempt is answered
    with HTTP 404, or with any other 4xx status except 408 and 429, the
    search returns a failure envelope after exactly that one attempt: no
    retry and no backoff delay. *)
Theorem client_error_is_not_retried (e : env) (query collection_name : pystr)
    (top_k : Z) (score_threshold : float) (r : response) :
  let rq := outbound e query collection_name top_k score_threshold in
  blank query = false ->
  remote e 0 rq = Responded r ->
  400 <= status_code r <= 499 ->
  status_code r <> 408 -> status_code r <> 429 ->
  run (search_knowledge_base e query collection_name top_k score_threshold)
  = (Return (search_failure (status_error_message (req_url rq) r)
                            query collection_name),
     [Sent rq]).
Proof.
  intros rq Hq Hr Hrange H408 H429.
  apply (search_of_raise e query collection_name top_k score_threshold Hq
           (failure_of rq (Responded r))).
  fold rq. cbn [enumerate retry_delays].
  rewrite retry_loop_fatal; cbn [requests flat_map List.length];
    rewrite Hr; simpl; [reflexivity | |].
  - unfold is_success.
    destruct (Z.leb_spec 200 (status_code r)); [|lia].
    destruct (Z.leb_spec (status_code r) 299); [lia|]. reflexivity.
  - destruct (Z.geb_spec (status_code r) 500); [lia|].
    destruct (Z.eqb_spec (status_code r) 408); [lia|].
    destruct (Z.eqb_spec (status_code r) 429); [lia|]. reflexivity.
Qed.

Lemma client_error_is_not_retried_witness :
  let e := Scenario.script (Scenario.always Scenario.not_found) in
  let rq := outbound e (lit "q") (lit "default") 5 Scenario.threshold in
  run (search_knowledge_base e (lit "q") (lit "default") 5 Scenario.threshold)
  = (Return (search_failure
               (status_error_message (req_url rq) Scenario.not_found)
               (lit "q") (lit "default")),
     [Sent rq]).
Proof.
  intros e rq.
  apply (client_error_is_not_retried e (lit "q") (lit "default") 5
           Scenario.threshold Scenario.not_found).
  - reflexivity.
  - reflexivity.
  - simpl. lia.
  - discriminate.
  - discriminate.
Defined.

(* ================================================================== *)
(** ** Retries *)

Section ScriptRetries.

Variable e : env.
Variables query collection_name : pystr.
Variable top_k : Z.
Variable score_threshold : float.

Let rq : request := outbound e query collection_name top_k score_threshold.

Hypothesis not_blank : blank query = false.
Hypothesis as_script : asyncio_bound e = true.

Variables r0 r1 r2 : response.
Hypothesis first : remote e 0 rq = Responded r0.
Hypothesis first_503 : status_code r0 = 503.
Hypothesis second : remote e 1 rq = Responded r1.
Hypothesis second_503 : status_code r1 = 503.
Hypothesis third : remote e 2 rq = Responded r2.

(** With [asyncio] bound (the file run as a script): 503, 503 and then 200
    with two documents give the success envelope after three attempts and
    the delays 1 and 2. *)
Lemma script_retries_until_success (doc1 doc2 : json) :
  status_code r2 = 200 ->
  content r2 = Parsed (JObj [(lit "documents", JArr [doc1; doc2])]) ->
  run (search_knowledge_base e query collection_name top_k score_threshold)
  = (Return (search_success query collection_name (JArr [doc1; doc2]) 2),
     [Sent rq; Slept 1; Sent rq; Slept 2; Sent rq]).
Proof.
  intros H200 Hbody.
  apply (search_of_break e query collection_name top_k score_threshold
           not_blank r2 _ [(lit "documents", JArr [doc1; doc2])] 2);
    [| exact Hbody | reflexivity].
  fold rq. cbn [enumerate retry_delays].
  rewrite retry_loop_again;
    [| cbn [requests flat_map List.length]; rewrite first; simpl;
       rewrite first_503; reflexivity
     | reflexivity | exact as_script].
  rewrite retry_loop_again;
    [| cbn [requests flat_map List.length app]; rewrite second; simpl;
       rewrite second_503; reflexivity
     | reflexivity | exact as_script].
  rewrite (retry_loop_break e rq 3%nat 4 [] _ r2);
    [reflexivity | exact third |].
  unfold is_success. rewrite H200. reflexivity.
Qed.

(** With [asyncio] bound: 503 on all three attempts gives a failure
    envelope whose error quotes 503, after three attempts and the delays 1
    and 2; the third delay of the schedule is never slept and there is no
    fourth attempt. *)
Lemma script_gives_up_after_three :
  status_code r2 = 503 ->
  exists msg,
    run (search_knowledge_base e query collection_name top_k score_threshold)
    = (Return (search_failure msg query collection_name),
       [Sent rq; Slept 1; Sent rq; Slept 2; Sent rq])
    /\ infix (lit "503") msg = true.
Proof.
  intros H503. exists (status_error_message (req_url rq) r2). split.
  - apply (search_of_raise e query collection_name top_k score_threshold
             not_blank (failure_of rq (Responded r2))).
    fold rq. cbn [enumerate retry_delays].
    rewrite retry_loop_again;
      [| cbn [requests flat_map List.length]; rewrite first; simpl;
         rewrite first_503; reflexivity
       | reflexivity | exact as_script].
    rewrite retry_loop_again;
      [| cbn [requests flat_map List.length app]; rewrite second; simpl;
         rewrite second_503; reflexivity
       | reflexivity | exact as_script].
    rewrite retry_loop_exhausted;
      cbn [requests flat_map List.length app]; rewrite ?third;
      [reflexivity | simpl; rewrite H503; reflexivity | reflexivity].
  - pose proof (status_error_message_quotes_code (req_url rq) r2) as H.
    rewrite H503 in H. exact H.
Qed.

End ScriptRetries.

(** C2. Checked where it fails.  The module being imported (so that the
    [import asyncio] under the [__main__] guard has not run) and the endpoint
    answering 503, 503 and then 200 with [{"documents": [doc1, doc2]}], the
    search does not reach the third attempt: after the first 503 the lookup
    of [asyncio] raises, and the search returns a failure envelope after one
    attempt and no delay.  [script_retries_until_success] is the behaviour
    the claim describes, which holds when [asyncio] is bound. *)
Theorem imported_search_stops_before_the_200 :
  let e := Scenario.imported
             (Scenario.flaky (Scenario.doc "a") (Scenario.doc "b")) in
  let rq := outbound e (lit "q") (lit "default") 5 Scenario.threshold in
  run (search_knowledge_base e (lit "q") (lit "default") 5 Scenario.threshold)
  = (Return (search_failure (lit "name 'asyncio' is not defined")
                            (lit "q") (lit "default")),
     [Sent rq]).
Proof. vm_compute. reflexivity. Qed.

(** C3. Checked where it fails.  The module being imported and the endpoint
    answering 503 to every call, the search makes one attempt, not three,
    sleeps no delay, and the error text of its failure envelope is that of
    the [NameError], in which 503 does not occur.
    [script_gives_up_after_three] is the behaviour the claim describes, which
    holds when [asyncio] is bound. *)
Theorem imported_search_hides_the_503 :
  let e := Scenario.imported (Scenario.always Scenario.unavailable) in
  let rq := outbound e (lit "q") (lit "default") 5 Scenario.threshold in
  let msg := lit "name 'asyncio' is not defined" in
  run (search_knowledge_base e (lit "q") (lit "default") 5 Scenario.threshold)
  = (Return (search_failure msg (lit "q") (lit "default")), [Sent rq])
  /\ infix (lit "503") msg = false.
Proof. split; vm_compute; reflexivity. Qed.

(** C4, as stated, fails when the file is run as a script: [asyncio] is then
    bound, and after a first 503 the search sleeps 1s and makes a second
    attempt, which here succeeds. *)
Lemma script_search_retries_after_a_503 :
  let e := Scenario.script Scenario.hiccup in
  let rq := outbound e (lit "q") (lit "default") 5 Scenario.threshold in
  blank (lit "q") = false
  /\ retryable (remote e 0 rq) = true
  /\ run (search_knowledge_base e (lit "q") (lit "default") 5
                                Scenario.threshold)
     = (Return (search_success (lit "q") (lit "default") (JArr []) 0),
        [Sent rq; Slept 1; Sent rq])
  /\ ~ single_attempt_name_error e (lit "q") (lit "default") 5
         Scenario.threshold.
Proof.
  repeat split; try (vm_compute; reflexivity).
  unfold single_attempt_name_error. vm_compute. discriminate.
Qed.

(** C4, amended.  When the name [asyncio] is not bound in the module's
    globals (the module imported rather than run as a script), a query that
    is not blank and a first attempt that fails with a retryable condition (a
    timeout, or a status that is at least 500 or one of 408 and 429) give a
    failure envelope after exactly that one attempt and no delay; its error
    text is that of the [NameError], not of the transport failure. *)
Theorem unbound_asyncio_ends_the_search (e : env)
    (query collection_name : pystr) (top_k : Z) (score_threshold : float) :
  asyncio_bound e = false ->
  blank query = false ->
  retryable (remote e 0 (outbound e query collection_name top_k
                                  score_threshold)) = true ->
  single_attempt_name_error e query collection_name top_k score_threshold.
Proof.
  intros Hb Hq Hr. unfold single_attempt_name_error.
  apply (search_of_raise e query collection_name top_k score_threshold Hq
           asyncio_unbound).
  cbn [enumerate retry_delays].
  rewrite retry_loop_name_error; [reflexivity | exact Hr | reflexivity
                                 | exact Hb].
Qed.

Lemma unbound_asyncio_ends_the_search_witness :
  single_attempt_name_error
    (Scenario.imported (Scenario.always Scenario.unavailable))
    (lit "q") (lit "default") 5 Scenario.threshold.
Proof.
  apply unbound_asyncio_ends_the_search; reflexivity.
Defined.

(* ================================================================== *)
(** ** Successful searches *)

(** C8, as stated, fails on a 2xx response whose body is JSON but not an
    object: the body [[]] has no [get], the [AttributeError] is caught by the
    outermost handler, and the search returns a failure envelope. *)
Lemma search_of_a_json_array_fails :
  let e := Scenario.script (Scenario.always (Scenario.ok (JArr []))) in
  let rq := outbound e (lit "q") (lit "default") 5 Scenario.threshold in
  remote e 0 rq = Responded (Scenario.ok (JArr []))
  /\ is_success (Scenario.ok (JArr [])) = true
  /\ content (Scenario.ok (JArr [])) = Parsed (JArr [])
  /\ run (search_knowledge_base e (lit "q") (lit "default") 5
                                Scenario.threshold)
     = (Return (search_failure (lit "'list' object has no attribute 'get'")
                               (lit "q") (lit "default")),
        [Sent rq]).
Proof. repeat split; vm_compute; reflexivity. Qed.

(** C8, amended.  For every search of a query that is not blank whose last
    attempt is answered by a 2xx response whose body parses as a JSON object
    in which [documents] is absent or is a value that has a length (an
    array, a string or an object), the search returns [{success: true,
    query, collection: collection_name, results: documents, count}], where
    [documents] is that field, or the empty sequence when it is absent, and
    [count] is its length. *)
Theorem successful_search_envelope (e : env) (query collection_name : pystr)
    (top_k : Z) (score_threshold : float) (r : response)
    (fields : list (pystr * json)) (count : nat) :
  let out :=
    run (search_knowledge_base e query collection_name top_k
                               score_threshold) in
  let documents := dict_get fields (lit "documents") (JArr []) in
  blank query = false ->
  last_reply e (snd out) = Some (Responded r) ->
  is_success r = true ->
  content r = Parsed (JObj fields) ->
  len documents = inl count ->
  fst out = Return (search_success query collection_name documents count).
Proof.
  intros out documents Hq Hlast Hok Hbody Hlen. subst out.
  rewrite search_trace in Hlast by exact Hq.
  pose proof (retry_loop_outcome e
                (outbound e query collection_name top_k score_threshold)
                (enumerate retry_delays 1) []) as Hout.
  pose proof (search_of_break e query collection_name top_k score_threshold
                Hq) as Hbreak.
  destruct (retry_loop e _ (enumerate retry_delays 1) [])
    as [[[r'|]|ex] tr].
  - destruct Hout as [Hl _]; [discriminate|]. simpl in Hlast.
    rewrite Hlast in Hl. injection Hl as <-.
    rewrite (Hbreak r tr fields count eq_refl Hbody Hlen). reflexivity.
  - destruct Hout as (rp & Hl & Hs); [discriminate|]. simpl in Hlast.
    rewrite Hlast in Hl. injection Hl as <-. simpl in Hs. congruence.
  - destruct Hout as (rp & Hl & Hs); [discriminate|]. simpl in Hlast.
    rewrite Hlast in Hl. injection Hl as <-. simpl in Hs. congruence.
Qed.

Lemma successful_search_envelope_witness :
  let doc1 := Scenario.doc "a" in
  let doc2 := Scenario.doc "b" in
  let e := Scenario.script (Scenario.flaky doc1 doc2) in
  fst (run (search_knowledge_base e (lit "q") (lit "default") 5
                                  Scenario.threshold))
  = Return (search_success (lit "q") (lit "default") (JArr [doc1; doc2]) 2).
Proof.
  intros doc1 doc2 e.
  apply (successful_search_envelope e (lit "q") (lit "default") 5
           Scenario.threshold
           (Scenario.ok (JObj [(lit "documents", JArr [doc1; doc2])]))
           [(lit "documents", JArr [doc1; doc2])] 2);
    reflexivity.
Defined.

(* ================================================================== *)
(** ** [get_document] and [list_collections] *)






(** C10, as stated, fails on a 2xx response whose body is JSON but not an
    object: for the body [[]], [list_collections] returns a failure
    envelope. *)
Lemma list_collections_of_a_json_array_fails :
  let e := Scenario.script (Scenario.always (Scenario.ok (JArr []))) in
  let rq := collections_request e in
  remote e 0 rq = Responded (Scenario.ok (JArr []))
  /\ is_success (Scenario.ok (JArr [])) = true
  /\ content (Scenario.ok (JArr [])) = Parsed (JArr [])
  /\ run (list_collections e)
     = (Return (JObj [(lit "success", JBool false);
                      (lit "error",
                       JStr (lit "'list' object has no attribute 'get'"))]),
        [Sent rq]).
Proof. repeat split; vm_compute; reflexivity. Qed.

(** C10, amended.  For every 2xx response whose body parses as a JSON object
    in which [collections] is absent or is a value that has a length,
    [list_collections] returns [{success: true, collections}], where
    [collections] is that field, or the empty sequence when it is absent; in
    particular for the body [{"collections": []}] it returns
    [{success: true, collections: []}]. *)
Theorem list_collections_success_envelope (e : env) (r : response)
    (fields : list (pystr * json)) (count : nat) :
  let rq := collections_request e in
  let collections := dict_get fields (lit "collections") (JArr []) in
  remote e 0 rq = Responded r ->
  is_success r = true ->
  content r = Parsed (JObj fields) ->
  len collections = inl count ->
  run (list_collections e)
  = (Return (collections_success collections), [Sent rq]).
Proof.
  intros rq collections Hr Hok Hbody Hlen.
  unfold run, list_collections. fold rq.
  unfold try_except, bind, send, raise_for_status, response_json.
  cbn [requests flat_map List.length]. rewrite Hr, Hok. simpl.
  rewrite Hbody. simpl. fold collections. rewrite Hlen. reflexivity.
Qed.

Lemma list_collections_success_envelope_witness :
  let body := JObj [(lit "collections", JArr [])] in
  let e := Scenario.script (Scenario.always (Scenario.ok body)) in
  run (list_collections e)
  = (Return (collections_success (JArr [])), [Sent (collections_request e)]).
Proof.
  intros body e.
  apply (list_collections_success_envelope e (Scenario.ok body)
           [(lit "collections", JArr [])] 0);
    reflexivity.
Defined.

(* ================================================================== *)
(** ** The shape of a search *)

(** Case analysis on one iteration of the loop, by the step lemmas. *)
Ltac retry_cases e rq attempt delay rest tr :=
  let rp := fresh "rp" in
  let Hs := fresh "Hs" in
  let Hr := fresh "Hr" in
  let Ha := fresh "Ha" in
  let Hb := fresh "Hb" in
  let Erp := fresh "Erp" in
  pose (rp := remote e (List.length (requests tr)) rq);
  destruct (succeeded rp) eqn:Hs;
  [ destruct rp as [?r|?m|?m] eqn:Erp; try discriminate Hs;
    rewrite (retry_loop_break e rq attempt delay rest tr _ Erp Hs)
  | destruct (retryable rp) eqn:Hr;
    [ destruct (attempt <? List.length retry_delays)%nat eqn:Ha;
      [ destruct (asyncio_bound e) eqn:Hb;
        [ rewrite (retry_loop_again e rq attempt delay rest tr Hr Ha Hb)
        | rewrite (retry_loop_name_error e rq attempt delay rest tr Hr Ha Hb) ]
      | rewrite (retry_loop_exhausted e rq attempt delay rest tr Hr Ha) ]
    | rewrite (retry_loop_fatal e rq attempt delay rest tr Hs Hr) ] ].

(** X1. Whatever the endpoint does and whether [asyncio] is bound or not, a
    search of a query that is not blank leaves one of three traces: one
    request; a request, 1s, a request; or a request, 1s, a request, 2s, a
    request.  So there is never a fourth attempt, the delay 4 of the
    schedule is never slept, and a delay is always followed by an attempt. *)
Theorem search_trace_shapes (e : env) (query collection_name : pystr)
    (top_k : Z) (score_threshold : float) :
  let rq := outbound e query collection_name top_k score_threshold in
  let trace :=
    snd (run (search_knowledge_base e query collection_name top_k
                                    score_threshold)) in
  blank query = false ->
  trace = [Sent rq]
  \/ trace = [Sent rq; Slept 1; Sent rq]
  \/ trace = [Sent rq; Slept 1; Sent rq; Slept 2; Sent rq].
Proof.
  intros rq trace Hq. subst trace. rewrite search_trace by exact Hq.
  fold rq. cbn [enumerate retry_delays].
  retry_cases e rq 1%nat 1 [(2%nat, 2); (3%nat, 4)] (@nil event);
    try (left; reflexivity).
  retry_cases e rq 2%nat 2 [(3%nat, 4)] ([] ++ [Sent rq; Slept 1]);
    try (right; left; reflexivity).
  retry_cases e rq 3%nat 4 (@nil (nat * Z))
              (([] ++ [Sent rq; Slept 1]) ++ [Sent rq; Slept 2]);
    try (right; right; reflexivity).
  discriminate.
Qed.

Lemma search_trace_shapes_witness :
  let e := Scenario.script Cases.worsening in
  let rq := outbound e (lit "q") (lit "default") 5 Scenario.threshold in
  let trace :=
    snd (run (search_knowledge_base e (lit "q") (lit "default") 5
                                    Scenario.threshold)) in
  trace = [Sent rq]
  \/ trace = [Sent rq; Slept 1; Sent rq]
  \/ trace = [Sent rq; Slept 1; Sent rq; Slept 2; Sent rq].
Proof.
  intros e rq.
  apply (search_trace_shapes e (lit "q") (lit "default") 5
           Scenario.threshold).
  reflexivity.
Defined.

(** X2. With [asyncio] unbound, a search of a query that is not blank sends
    exactly one request and sleeps no delay, whatever the endpoint answers:
    a 2xx ends the loop, a final failure is re-raised, and a retryable one
    ends in the [NameError]. *)
Theorem unbound_asyncio_search_sends_once (e : env)
    (query collection_name : pystr) (top_k : Z) (score_threshold : float) :
  asyncio_bound e = false ->
  blank query = false ->
  snd (run (search_knowledge_base e query collection_name top_k
                                  score_threshold))
  = [Sent (outbound e query collection_name top_k score_threshold)].
Proof.
  intros Hb Hq. rewrite search_trace by exact Hq.
  cbn [enumerate retry_delays].
  retry_cases e (outbound e query collection_name top_k score_threshold)
              1%nat 1 [(2%nat, 2); (3%nat, 4)] (@nil event);
    try reflexivity.
  congruence.
Qed.

Lemma unbound_asyncio_search_sends_once_witness :
  let e := Scenario.imported Cases.timing_out in
  snd (run (search_knowledge_base e (lit "q") (lit "default") 5
                                  Scenario.threshold))
  = [Sent (outbound e (lit "q") (lit "default") 5 Scenario.threshold)].
Proof.
  intros e.
  apply (unbound_asyncio_search_sends_once e (lit "q") (lit "default") 5
           Scenario.threshold); reflexivity.
Defined.

Lemma get_document_trace (e : env) (document_id collection_name : pystr) :
  blank document_id = false ->
  snd (run (get_document e document_id collection_name))
  = [Sent (document_request e document_id collection_name)].
Proof.
  intros Hid. unfold run, get_document. rewrite Hid.
  unfold try_except, bind, send, raise_for_status, response_json.
  destruct (remote e _ _) as [r|m|m]; simpl; try reflexivity.
  destruct (is_success r); simpl; [| reflexivity].
  destruct (content r); reflexivity.
Qed.

Lemma list_collections_trace (e : env) :
  snd (run (list_collections e)) = [Sent (collections_request e)].
Proof.
  unfold run, list_collections.
  unfold try_except, bind, send, raise_for_status, response_json.
  destruct (remote e _ _) as [r|m|m]; simpl; try reflexivity.
  destruct (is_success r); simpl; [| reflexivity].
  destruct (content r) as [v|msg]; simpl; [| reflexivity].
  destruct (get_method v) as [fields|ex]; simpl; [| reflexivity].
  destruct (len (dict_get fields (lit "collections") (JArr [])));
    reflexivity.
Qed.

(** X3. [get_document] (for a document id that is not blank) and
    [list_collections] send exactly one request whatever the endpoint
    answers: a 503, a 429 or a timeout is not retried, and nothing is
    slept. *)
Theorem single_get_tools_send_once (e : env)
    (document_id collection_name : pystr) :
  blank document_id = false ->
  snd (run (get_document e document_id collection_name))
  = [Sent (document_request e document_id collection_name)]
  /\ snd (run (list_collections e)) = [Sent (collections_request e)].
Proof.
  intros Hid. split.
  - now apply get_document_trace.
  - apply list_collections_trace.
Qed.

Lemma single_get_tools_send_once_witness :
  let e := Scenario.script (Scenario.always Scenario.unavailable) in
  snd (run (get_document e (lit "d1") (lit "default")))
  = [Sent (document_request e (lit "d1") (lit "default"))]
  /\ snd (run (list_collections e)) = [Sent (collections_request e)].
Proof.
  intros e.
  apply (single_get_tools_send_once e (lit "d1") (lit "default")).
  reflexivity.
Defined.

(** X4. A search sends no request exactly when its query is empty or made
    of whitespace only, and so does [get_document] for its document id: a
    text with one character that is not whitespace always reaches the
    network, untrimmed. *)
Theorem no_request_iff_blank (e : env) (text collection_name : pystr)
    (top_k : Z) (score_threshold : float) :
  (snd (run (search_knowledge_base e text collection_name top_k
                                   score_threshold)) = []
   <-> forallb isspace text = true)
  /\ (snd (run (get_document e text collection_name)) = []
      <-> forallb isspace text = true).
Proof.
  split; (split; [| intros H; apply blank_iff in H]).
  - intros H. apply blank_iff. destruct (blank text) eqn:Hq; [reflexivity|].
    rewrite search_trace in H by exact Hq.
    destruct (retry_loop_sends e
                (outbound e text collection_name top_k score_threshold)
                (enumerate retry_delays 1) [])
      as (added & Ht & _ & Hfirst).
    destruct Hfirst as [more Hm]; [discriminate|].
    rewrite Ht, Hm in H. discriminate H.
  - unfold run, search_knowledge_base. rewrite H. reflexivity.
  - intros H. apply blank_iff. destruct (blank text) eqn:Hq; [reflexivity|].
    rewrite (get_document_trace e text collection_name Hq) in H.
    discriminate H.
  - unfold run, get_document. rewrite H. reflexivity.
Qed.

(* ================================================================== *)
(** ** Where a search stops *)

Section LoopExit.

Variable e : env.
Variable rq : request.

(** An attempt whose failure is not retryable, or that succeeds, is the
    last one. *)
Lemma retry_loop_final (attempt : nat) (delay : Z) (rest : list (nat * Z))
    (tr : list event) :
  retryable (remote e (List.length (requests tr)) rq) = false ->
  retry_loop e rq ((attempt, delay) :: rest) tr
  = (loop_exit rq (remote e (List.length (requests tr)) rq),
     tr ++ [Sent rq]).
Proof.
  intros Hr.
  destruct (succeeded (remote e (List.length (requests tr)) rq)) eqn:Hs.
  - destruct (remote e (List.length (requests tr)) rq) as [r|m|m] eqn:Erp;
      try discriminate Hs.
    rewrite (retry_loop_break e rq attempt delay rest tr r Erp Hs).
    simpl in Hs. simpl. rewrite Hs. reflexivity.
  - rewrite (retry_loop_fatal e rq attempt delay rest tr Hs Hr).
    destruct (remote e (List.length (requests tr)) rq) as [r|m|m];
      simpl in *; [rewrite Hs|..]; reflexivity.
Qed.

Hypothesis as_script : asyncio_bound e = true.

(** With [asyncio] bound the loop goes on as long as the attempts fail
    retryably, and leaves at the first one that does not. *)
Lemma script_loop_stops (n : nat) :
  (n < 3)%nat ->
  (forall i, (i < n)%nat -> retryable (remote e i rq) = true) ->
  retryable (remote e n rq) = false ->
  retry_loop e rq (enumerate retry_delays 1) []
  = (loop_exit rq (remote e n rq), firstn (2 * n + 1) (schedule_trace rq)).
Proof.
  intros Hn Hretry Hfinal. cbn [enumerate retry_delays].
  destruct n as [|[|[|n]]]; [| | | lia].
  - rewrite retry_loop_final by exact Hfinal. reflexivity.
  - rewrite retry_loop_again;
      [| apply (Hretry 0%nat); lia | reflexivity | exact as_script].
    rewrite retry_loop_final by exact Hfinal. reflexivity.
  - rewrite retry_loop_again;
      [| apply (Hretry 0%nat); lia | reflexivity | exact as_script].
    rewrite retry_loop_again;
      [| apply (Hretry 1%nat); lia | reflexivity | exact as_script].
    rewrite retry_loop_final by exact Hfinal. reflexivity.
Qed.

(** With [asyncio] bound and three retryable failures the loop re-raises
    the third. *)
Lemma script_loop_exhausts :
  (forall i, (i < 3)%nat -> retryable (remote e i rq) = true) ->
  retry_loop e rq (enumerate retry_delays 1) []
  = (Raise (failure_of rq (remote e 2 rq)), schedule_trace rq).
Proof.
  intros Hretry. cbn [enumerate retry_delays].
  rewrite retry_loop_again;
    [| apply (Hretry 0%nat); lia | reflexivity | exact as_script].
  rewrite retry_loop_again;
    [| apply (Hretry 1%nat); lia | reflexivity | exact as_script].
  rewrite retry_loop_exhausted;
    [reflexivity | apply (Hretry 2%nat); lia | reflexivity].
Qed.

Lemma last_reply_of_schedule (n : nat) :
  (n < 3)%nat ->
  last_reply e (firstn (2 * n + 1) (schedule_trace rq))
  = Some (remote e n rq).
Proof.
  intros Hn. destruct n as [|[|[|n]]]; [reflexivity.. | lia].
Qed.

End LoopExit.

(** X5. With [asyncio] bound, a search of a query that is not blank stops
    at the first attempt, among its three, that does not fail retryably: if
    that is attempt [n] (from 0), it has sent [n + 1] requests with the
    delays 1s, 2s between them, in that order; and if attempt [n] failed, the
    failure envelope carries the text of that failure. *)
Theorem script_search_stops_at_first_final_reply (e : env)
    (query collection_name : pystr) (top_k : Z) (score_threshold : float)
    (n : nat) :
  let rq := outbound e query collection_name top_k score_threshold in
  let out :=
    run (search_knowledge_base e query collection_name top_k
                               score_threshold) in
  asyncio_bound e = true ->
  blank query = false ->
  (n < 3)%nat ->
  (forall i, (i < n)%nat -> retryable (remote e i rq) = true) ->
  retryable (remote e n rq) = false ->
  snd out = firstn (2 * n + 1) (schedule_trace rq)
  /\ last_reply e (snd out) = Some (remote e n rq)
  /\ (succeeded (remote e n rq) = false ->
      fst out
      = Return (search_failure (str_exn (failure_of rq (remote e n rq)))
                               query collection_name)).
Proof.
  intros rq out Hb Hq Hn Hretry Hfinal. subst out.
  pose proof (script_loop_stops e rq Hb n Hn Hretry Hfinal) as Hloop.
  assert (Htrace :
    snd (run (search_knowledge_base e query collection_name top_k
                                    score_threshold))
    = firstn (2 * n + 1) (schedule_trace rq)).
  { rewrite search_trace by exact Hq. fold rq. now rewrite Hloop. }
  split; [exact Htrace | split].
  - rewrite Htrace. now apply last_reply_of_schedule.
  - intros Hfail.
    rewrite (search_of_raise e query collection_name top_k score_threshold
               Hq (failure_of rq (remote e n rq))
               (firstn (2 * n + 1) (schedule_trace rq))); [reflexivity|].
    fold rq. rewrite Hloop. f_equal.
    destruct (remote e n rq) as [r|m|m]; simpl in *; [| reflexivity..].
    now rewrite Hfail.
Qed.

Lemma script_search_stops_at_first_final_reply_witness :
  let e := Scenario.script Cases.worsening in
  let rq := outbound e (lit "q") (lit "default") 5 Scenario.threshold in
  let out :=
    run (search_knowledge_base e (lit "q") (lit "default") 5
                               Scenario.threshold) in
  snd out = [Sent rq; Slept 1; Sent rq; Slept 2; Sent rq]
  /\ last_reply e (snd out) = Some (Responded Scenario.not_found)
  /\ (succeeded (Responded Scenario.not_found) = false ->
      fst out
      = Return (search_failure
                  (status_error_message (req_url rq) Scenario.not_found)
                  (lit "q") (lit "default"))).
Proof.
  intros e rq.
  apply (script_search_stops_at_first_final_reply e (lit "q") (lit "default")
           5 Scenario.threshold 2).
  - reflexivity.
  - reflexivity.
  - lia.
  - intros i Hi. destruct i as [|[|i]]; [reflexivity | reflexivity | lia].
  - reflexivity.
Defined.

(** X6. With [asyncio] bound, when all three attempts of a search fail
    retryably (timeouts, 5xx, 408 or 429, in any mix), the search has sent
    three requests with the delays 1s and 2s between them, and its failure
    envelope carries the text of the third failure. *)
Theorem script_search_reports_the_third_failure (e : env)
    (query collection_name : pystr) (top_k : Z) (score_threshold : float) :
  let rq := outbound e query collection_name top_k score_threshold in
  asyncio_bound e = true ->
  blank query = false ->
  (forall i, (i < 3)%nat -> retryable (remote e i rq) = true) ->
  run (search_knowledge_base e query collection_name top_k score_threshold)
  = (Return (search_failure (str_exn (failure_of rq (remote e 2 rq)))
                            query collection_name),
     schedule_trace rq).
Proof.
  intros rq Hb Hq Hretry.
  apply (search_of_raise e query collection_name top_k score_threshold Hq
           (failure_of rq (remote e 2 rq))).
  now apply script_loop_exhausts.
Qed.

Lemma script_search_reports_the_third_failure_witness :
  let e := Scenario.script Cases.timing_out in
  let rq := outbound e (lit "q") (lit "default") 5 Scenario.threshold in
  run (search_knowledge_base e (lit "q") (lit "default") 5 Scenario.threshold)
  = (Return (search_failure (lit "The read operation timed out")
                            (lit "q") (lit "default")),
     schedule_trace rq).
Proof.
  intros e rq.
  apply (script_search_reports_the_third_failure e (lit "q") (lit "default")
           5 Scenario.threshold).
  - reflexivity.
  - reflexivity.
  - intros i _. reflexivity.
Defined.

(** X7. Whether [asyncio] is bound or not, a first attempt that fails with
    anything that is not retryable (a connection error or any other
    exception of the client that is not a timeout, or a status that is not
    2xx, below 500 and neither 408 nor 429, so 1xx and 3xx too) ends the
    search: one request, no delay, and the failure envelope carries the text
    of that failure. *)
Theorem final_failure_is_not_retried (e : env)
    (query collection_name : pystr) (top_k : Z) (score_threshold : float) :
  let rq := outbound e query collection_name top_k score_threshold in
  blank query = false ->
  succeeded (remote e 0 rq) = false ->
  retryable (remote e 0 rq) = false ->
  run (search_knowledge_base e query collection_name top_k score_threshold)
  = (Return (search_failure (str_exn (failure_of rq (remote e 0 rq)))
                            query collection_name),
     [Sent rq]).
Proof.
  intros rq Hq Hs Hr.
  apply (search_of_raise e query collection_name top_k score_threshold Hq
           (failure_of rq (remote e 0 rq))).
  cbn [enumerate retry_delays].
  now rewrite retry_loop_fatal.
Qed.

Lemma final_failure_is_not_retried_witness :
  let e := Scenario.imported Cases.refusing in
  let rq := outbound e (lit "q") (lit "default") 5 Scenario.threshold in
  run (search_knowledge_base e (lit "q") (lit "default") 5 Scenario.threshold)
  = (Return (search_failure (lit "All connection attempts failed")
                            (lit "q") (lit "default")),
     [Sent rq]).
Proof.
  intros e rq.
  apply (final_failure_is_not_retried e (lit "q") (lit "default") 5
           Scenario.threshold); reflexivity.
Defined.

(** The result of a search depends on its environment only through the
    request it sends and the way its loop ends. *)
Lemma search_depends_on_loop (e1 e2 : env) (query collection_name : pystr)
    (top_k : Z) (score_threshold : float) :
  let rq1 := outbound e1 query collection_name top_k score_threshold in
  let rq2 := outbound e2 query collection_name top_k score_threshold in
  retry_loop e1 rq1 (enumerate retry_delays 1) []
  = retry_loop e2 rq2 (enumerate retry_delays 1) [] ->
  run (search_knowledge_base e1 query collection_name top_k score_threshold)
  = run (search_knowledge_base e2 query collection_name top_k
                               score_threshold).
Proof.
  intros rq1 rq2 Hloop. unfold run, search_knowledge_base.
  destruct (blank query); [reflexivity|].
  rewrite clamp_top_k.
  fold (outbound e1 query collection_name top_k score_threshold).
  fold (outbound e2 query collection_name top_k score_threshold).
  fold rq1 rq2. unfold try_except, bind. rewrite Hloop. reflexivity.
Qed.

(** X8. The binding of [asyncio] matters only after a retryable failure:
    when the first attempt succeeds or fails for good, the search returns
    the same envelope and leaves the same trace whether [asyncio] is bound
    or not. *)
Theorem asyncio_matters_only_after_a_retryable_failure (e : env)
    (query collection_name : pystr) (top_k : Z) (score_threshold : float) :
  retryable (remote e 0 (outbound e query collection_name top_k
                                  score_threshold)) = false ->
  run (search_knowledge_base (with_asyncio true e) query collection_name
                             top_k score_threshold)
  = run (search_knowledge_base (with_asyncio false e) query collection_name
                               top_k score_threshold).
Proof.
  intros Hr. apply search_depends_on_loop.
  cbn [enumerate retry_delays].
  rewrite !retry_loop_final by exact Hr. reflexivity.
Qed.

Lemma asyncio_matters_only_after_a_retryable_failure_witness :
  let e := Scenario.script (Scenario.always Scenario.not_found) in
  run (search_knowledge_base (with_asyncio true e) (lit "q") (lit "default")
                             5 Scenario.threshold)
  = run (search_knowledge_base (with_asyncio false e) (lit "q")
                               (lit "default") 5 Scenario.threshold).
Proof.
  intros e.
  apply (asyncio_matters_only_after_a_retryable_failure e (lit "q")
           (lit "default") 5 Scenario.threshold).
  reflexivity.
Defined.

(* ================================================================== *)
(** ** What the envelopes carry *)

(** X9. For a query that is not blank a search returns one of two
    envelopes: the success envelope, whose [count] is the length of its
    [results], or the failure envelope; both echo the query as it was given
    and the collection name. *)
Theorem search_result_shapes (e : env) (query collection_name : pystr)
    (top_k : Z) (score_threshold : float) :
  blank query = false ->
  exists tr,
    (exists documents count,
        len documents = inl count
        /\ run (search_knowledge_base e query collection_name top_k
                                      score_threshold)
           = (Return (search_success query collection_name documents count),
              tr))
    \/ (exists msg,
           run (search_knowledge_base e query collection_name top_k
                                      score_threshold)
           = (Return (search_failure msg query collection_name), tr)).
Proof.
  intros Hq. unfold run, search_knowledge_base. rewrite Hq.
  unfold try_except, bind.
  destruct (retry_loop e _ _ []) as [[[r|]|ex] tr]; exists tr;
    try (right; eexists; reflexivity).
  unfold response_json.
  destruct (content r) as [v|msg]; simpl;
    [| right; eexists; reflexivity].
  destruct (get_method v) as [fields|ex]; simpl;
    [| right; eexists; reflexivity].
  destruct (len (dict_get fields (lit "documents") (JArr [])))
    as [n|ex] eqn:Hlen; simpl.
  - left. eexists _, n. split; [exact Hlen | reflexivity].
  - right. eexists. reflexivity.
Qed.

Lemma search_result_shapes_witness :
  let e := Scenario.script
             (Scenario.always (Scenario.ok Cases.null_documents)) in
  exists tr,
    (exists documents count,
        len documents = inl count
        /\ run (search_knowledge_base e (lit " q ") (lit "default") 5
                                      Scenario.threshold)
           = (Return (search_success (lit " q ") (lit "default") documents
                                     count), tr))
    \/ (exists msg,
           run (search_knowledge_base e (lit " q ") (lit "default") 5
                                      Scenario.threshold)
           = (Return (search_failure msg (lit " q ") (lit "default")), tr)).
Proof.
  intros e.
  apply (search_result_shapes e (lit " q ") (lit "default") 5
           Scenario.threshold).
  reflexivity.
Defined.

Lemma search_of_break_error (e : env) (query collection_name : pystr)
    (top_k : Z) (score_threshold : float) (r : response) (tr : list event)
    (ex : exn) :
  blank query = false ->
  retry_loop e (outbound e query collection_name top_k score_threshold)
             (enumerate retry_delays 1) [] = (Return (Some r), tr) ->
  body_error "documents" (content r) = Some ex ->
  run (search_knowledge_base e query collection_name top_k score_threshold)
  = (Return (search_failure (str_exn ex) query collection_name), tr).
Proof.
  intros Hq Hloop Herr.
  unfold run, search_knowledge_base. rewrite Hq, clamp_top_k.
  fold (outbound e query collection_name top_k score_threshold).
  unfold try_except, bind. rewrite Hloop.
  unfold response_json, body_error in *.
  destruct (content r) as [v|msg]; simpl.
  - destruct (get_method v) as [fields|ex']; simpl.
    + destruct (len (dict_get fields (lit "documents") (JArr [])))
        as [n|ex']; [discriminate|]. now injection Herr as <-.
    + now injection Herr as <-.
  - now injection Herr as <-.
Qed.

(** X10. When the last attempt of a search is answered with a 2xx whose body
    cannot be read as a list of documents (it is not JSON, or not a JSON
    object, or its [documents] is [null], a number or a boolean), the search
    returns the failure envelope with the text of the exception that reading
    it raised. *)
Theorem search_ill_shaped_body_is_a_failure (e : env)
    (query collection_name : pystr) (top_k : Z) (score_threshold : float)
    (r : response) (ex : exn) :
  let out :=
    run (search_knowledge_base e query collection_name top_k
                               score_threshold) in
  blank query = false ->
  last_reply e (snd out) = Some (Responded r) ->
  is_success r = true ->
  body_error "documents" (content r) = Some ex ->
  fst out = Return (search_failure (str_exn ex) query collection_name).
Proof.
  intros out Hq Hlast Hok Herr. subst out.
  rewrite search_trace in Hlast by exact Hq.
  pose proof (retry_loop_outcome e
                (outbound e query collection_name top_k score_threshold)
                (enumerate retry_delays 1) []) as Hout.
  pose proof (search_of_break_error e query collection_name top_k
                score_threshold) as Hbreak.
  destruct (retry_loop e _ (enumerate retry_delays 1) [])
    as [[[r'|]|ex'] tr].
  - destruct Hout as [Hl _]; [discriminate|]. simpl in Hlast.
    rewrite Hlast in Hl. injection Hl as <-.
    rewrite (Hbreak r tr ex Hq eq_refl Herr). reflexivity.
  - destruct Hout as (rp & Hl & Hs); [discriminate|]. simpl in Hlast.
    rewrite Hlast in Hl. injection Hl as <-. simpl in Hs. congruence.
  - destruct Hout as (rp & Hl & Hs); [discriminate|]. simpl in Hlast.
    rewrite Hlast in Hl. injection Hl as <-. simpl in Hs. congruence.
Qed.

Lemma search_ill_shaped_body_is_a_failure_witness :
  let e := Scenario.imported
             (Scenario.always (Scenario.ok Cases.null_documents)) in
  fst (run (search_knowledge_base e (lit "q") (lit "default") 5
                                  Scenario.threshold))
  = Return (search_failure (lit "object of type 'NoneType' has no len()")
                           (lit "q") (lit "default")).
Proof.
  intros e.
  apply (search_ill_shaped_body_is_a_failure e (lit "q") (lit "default") 5
           Scenario.threshold (Scenario.ok Cases.null_documents)
           (TypeError (lit "object of type 'NoneType' has no len()")));
    reflexivity.
Defined.

(** X11. For a document id that is not blank, a 2xx answer settles
    [get_document] by its body alone: any JSON value, an array or [null] as
    well as an object, is passed through as [{success: true, document}], and
    a body that is not JSON gives [{success: false, error, document_id}] with
    the decoder's text. *)
Theorem get_document_of_a_2xx (e : env) (document_id collection_name : pystr)
    (r : response) :
  let rq := document_request e document_id collection_name in
  blank document_id = false ->
  remote e 0 rq = Responded r ->
  is_success r = true ->
  run (get_document e document_id collection_name)
  = (Return match content r with
            | Parsed document => document_success document
            | Malformed msg => document_failure msg document_id
            end,
     [Sent rq]).
Proof.
  intros rq Hid Hr Hok. unfold run, get_document. rewrite Hid. fold rq.
  unfold try_except, bind, send, raise_for_status, response_json.
  cbn [requests flat_map List.length]. rewrite Hr, Hok. simpl.
  destruct (content r); reflexivity.
Qed.

Lemma get_document_of_a_2xx_witness :
  let e := Scenario.script (Scenario.always (Scenario.ok JNull)) in
  run (get_document e (lit "d1") (lit "default"))
  = (Return (document_success JNull),
     [Sent (document_request e (lit "d1") (lit "default"))]).
Proof.
  intros e.
  apply (get_document_of_a_2xx e (lit "d1") (lit "default")
           (Scenario.ok JNull)); reflexivity.
Defined.

(** X12. When its single GET fails (a status that is not 2xx, a timeout or
    another transport error), [list_collections] returns exactly
    [{success: false, error}] with the text of that failure. *)
Theorem list_collections_failure_envelope (e : env) :
  let rq := collections_request e in
  succeeded (remote e 0 rq) = false ->
  run (list_collections e)
  = (Return (collections_failure (str_exn (failure_of rq (remote e 0 rq)))),
     [Sent rq]).
Proof.
  intros rq Hfail. unfold run, list_collections. fold rq.
  unfold try_except, bind, send, raise_for_status.
  cbn [requests flat_map List.length].
  destruct (remote e 0 rq) as [r|m|m]; simpl in *; try reflexivity.
  rewrite Hfail. reflexivity.
Qed.

Lemma list_collections_failure_envelope_witness :
  let e := Scenario.script Cases.refusing in
  run (list_collections e)
  = (Return (collections_failure (lit "All connection attempts failed")),
     [Sent (collections_request e)]).
Proof.
  intros e. apply (list_collections_failure_envelope e). reflexivity.
Defined.

(** X13. When [list_collections] is answered with a 2xx whose body cannot be
    read as a list of collections (it is not JSON, or not a JSON object, or
    its [collections] is [null], a number or a boolean), it returns
    [{success: false, error}] with the text of the exception that reading it
    raised. *)
Theorem list_collections_ill_shaped_body_is_a_failure (e : env)
    (r : response) (ex : exn) :
  let rq := collections_request e in
  remote e 0 rq = Responded r ->
  is_success r = true ->
  body_error "collections" (content r) = Some ex ->
  run (list_collections e)
  = (Return (collections_failure (str_exn ex)), [Sent rq]).
Proof.
  intros rq Hr Hok Herr. unfold run, list_collections. fold rq.
  unfold try_except, bind, send, raise_for_status, response_json.
  cbn [requests flat_map List.length]. rewrite Hr, Hok. simpl.
  unfold body_error in Herr.
  destruct (content r) as [v|msg]; simpl.
  - destruct (get_method v) as [fields|ex']; simpl.
    + destruct (len (dict_get fields (lit "collections") (JArr [])))
        as [n|ex']; [discriminate|]. now injection Herr as <-.
    + now injection Herr as <-.
  - now injection Herr as <-.
Qed.

Lemma list_collections_ill_shaped_body_is_a_failure_witness :
  let body := JObj [(lit "collections", JInt 3)] in
  let e := Scenario.script (Scenario.always (Scenario.ok body)) in
  run (list_collections e)
  = (Return (collections_failure (lit "object of type 'int' has no len()")),
     [Sent (collections_request e)]).
Proof.
  intros body e.
  apply (list_collections_ill_shaped_body_is_a_failure e (Scenario.ok body)
           (TypeError (lit "object of type 'int' has no len()")));
    reflexivity.
Defined.

(* ================================================================== *)
(** ** Settings *)

Lemma eqb_eq (a b : pystr) : PyStr.eqb a b = true <-> a = b.
Proof.
  unfold PyStr.eqb. destruct (list_eq_dec N.eq_dec a b); split;
    intros H; try reflexivity; try assumption; try discriminate.
  contradiction.
Qed.

Lemma environ_get_unset (environ : list (pystr * pystr))
    (key default : pystr) :
  (forall v, ~ In (key, v) environ) ->
  environ_get environ key default = default.
Proof.
  induction environ as [|[k v] environ IH]; intros Hun; simpl.
  - reflexivity.
  - destruct (PyStr.eqb key k) eqn:Hk.
    + apply eqb_eq in Hk. subst k. exfalso. apply (Hun v). now left.
    + apply IH. intros v' Hin. apply (Hun v'). now right.
Qed.

(** X14. Every request that any of the three tools sends, retries included,
    goes to a URL under the base read from [RAG_API_URL] at start-up
    ([http://localhost:8000] when the variable is unset) and carries the
    header [Authorization: Bearer <key>] with the key read from
    [RAG_API_KEY] (empty when unset). *)
Theorem every_request_is_addressed_and_authorised
    (environ : list (pystr * pystr)) (as_main : bool)
    (endpoint : nat -> request -> reply)
    (text collection_name : pystr) (top_k : Z) (score_threshold : float)
    (rq : request) :
  let e := load environ as_main endpoint in
  let base :=
    environ_get environ (lit "RAG_API_URL") (lit "http://localhost:8000") in
  let key := environ_get environ (lit "RAG_API_KEY") (lit "") in
  In rq (requests (snd (run (search_knowledge_base e text collection_name
                                                   top_k score_threshold))))
  \/ In rq (requests (snd (run (get_document e text collection_name))))
  \/ In rq (requests (snd (run (list_collections e)))) ->
  startswith base (req_url rq) = true /\ authorised key rq.
Proof.
  intros e base key [Hin | [Hin | Hin]].
  - destruct (blank text) eqn:Hq.
    + unfold run, search_knowledge_base in Hin. rewrite Hq in Hin.
      contradiction Hin.
    + rewrite search_trace in Hin by exact Hq.
      destruct (retry_loop_sends e
                  (outbound e text collection_name top_k score_threshold)
                  (enumerate retry_delays 1) [])
        as (added & Ht & Hall & _).
      rewrite Ht in Hin. simpl in Hin. rewrite Forall_forall in Hall.
      rewrite <- (Hall rq Hin). split.
      * apply startswith_app.
      * left. reflexivity.
  - destruct (blank text) eqn:Hq.
    + unfold run, get_document in Hin. rewrite Hq in Hin.
      contradiction Hin.
    + rewrite get_document_trace in Hin by exact Hq.
      destruct Hin as [<- | []]. split.
      * apply startswith_app.
      * left. reflexivity.
  - rewrite list_collections_trace in Hin.
    destruct Hin as [<- | []]. split.
    + apply startswith_app.
    + left. reflexivity.
Qed.

Lemma every_request_is_addressed_and_authorised_witness :
  let environ := [(lit "RAG_API_KEY", lit "s3cret")] in
  let e := load environ true (Scenario.always Scenario.unavailable) in
  let rq := outbound e (lit "q") (lit "default") 5 Scenario.threshold in
  startswith (lit "http://localhost:8000") (req_url rq) = true
  /\ authorised (lit "s3cret") rq.
Proof.
  intros environ e rq.
  apply (every_request_is_addressed_and_authorised environ true
           (Scenario.always Scenario.unavailable)
           (lit "q") (lit "default") 5 Scenario.threshold rq).
  left. left. reflexivity.
Defined.

(** X15. Started with neither [RAG_API_URL] nor [RAG_API_KEY] in the
    environment, [list_collections] sends its one request to
    [http://localhost:8000/api/collections] with the header
    [Authorization: Bearer ] (an empty token), a connect timeout of 10s and
    a read timeout of 10s. *)
Theorem unset_settings_fall_back (environ : list (pystr * pystr))
    (as_main : bool) (endpoint : nat -> request -> reply) :
  (forall v, ~ In (lit "RAG_API_URL", v) environ) ->
  (forall v, ~ In (lit "RAG_API_KEY", v) environ) ->
  snd (run (list_collections (load environ as_main endpoint)))
  = [Sent {| req_method := GET;
             req_url := lit "http://localhost:8000/api/collections";
             req_headers := [(lit "Authorization", lit "Bearer ")];
             req_params := [];
             req_json := None;
             req_timeout := Timeout None (Some 10) (Some 10) |}].
Proof.
  intros Hurl Hkey. rewrite list_collections_trace.
  unfold collections_request, bearer, load. simpl.
  rewrite (environ_get_unset environ _ _ Hurl).
  rewrite (environ_get_unset environ _ _ Hkey). reflexivity.
Qed.

Lemma unset_settings_fall_back_witness :
  snd (run (list_collections
              (load [(lit "HOME", lit "/root")] false Cases.timing_out)))
  = [Sent {| req_method := GET;
             req_url := lit "http://localhost:8000/api/collections";
             req_headers := [(lit "Authorization", lit "Bearer ")];
             req_params := [];
             req_json := None;
             req_timeout := Timeout None (Some 10) (Some 10) |}].
Proof.
  apply (unset_settings_fall_back [(lit "HOME", lit "/root")] false
           Cases.timing_out).
  - intros v [H | []]. discriminate H.
  - intros v [H | []]. discriminate H.
Defined.
